(** * Resume analyzer: a shallow embedding of [main.py] and its properties

    The program reads a résumé, asks a language model three questions about
    it, parses the three replies as JSON and lays the results out as a PDF
    report.  This file embeds the parts of [main.py] that are the program's
    own (reply normalisation, the error wrappers, the report layout, the
    extraction glue and the control flow of the script) together with the
    Python built-ins they rest on ([str.strip], [str.replace],
    [str.startswith], [str.join], [bytes.decode], [json.loads], [dict.get],
    truthiness, iteration and [str()]).

    Python strings are sequences of Unicode code points and are modelled as
    lists of code points. *)

From Stdlib Require Import Strings.String Strings.Ascii.
From Stdlib Require Import List NArith ZArith Bool Lia.
Import ListNotations.

Set Implicit Arguments.
#[local] Set Warnings "-register-all".

(** ** Python strings *)

Module PyStr.

Definition char := N.
Definition str := list char.

(** An ASCII literal as a Python string (the literals of this file are
    ASCII; the bullet is given by its code point). *)
Fixpoint u (s : String.string) : str :=
  match s with
  | String.EmptyString => []
  | String.String c r => Ascii.N_of_ascii c :: u r
  end.

(** The same, with every apostrophe of the literal read as a double quote
    (code point 34), so that JSON text can be written down. *)
Definition dq : char := 34%N.

Fixpoint q (s : String.string) : str :=
  match s with
  | String.EmptyString => []
  | String.String c r =>
      (if N.eqb (Ascii.N_of_ascii c) 39 then dq else Ascii.N_of_ascii c) :: q r
  end.

Fixpoint str_eqb (a b : str) : bool :=
  match a, b with
  | [], [] => true
  | x :: a', y :: b' => N.eqb x y && str_eqb a' b'
  | _, _ => false
  end.

(** [str.isspace] on one code point: the code points CPython's
    [_PyUnicode_IsWhitespace] accepts. *)
Definition isspace (c : char) : bool :=
  (((9 <=? c) && (c <=? 13)) || ((28 <=? c) && (c <=? 32))
   || (c =? 133) || (c =? 160) || (c =? 5760)
   || ((8192 <=? c) && (c <=? 8202))
   || (c =? 8232) || (c =? 8233) || (c =? 8239) || (c =? 8287)
   || (c =? 12288))%N.

(** [s.lstrip()], [s.rstrip()] and [s.strip()] with no argument. *)
Fixpoint lstrip (s : str) : str :=
  match s with
  | [] => []
  | c :: r => if isspace c then lstrip r else s
  end.

Fixpoint rstrip (s : str) : str :=
  match s with
  | [] => []
  | c :: r =>
      match rstrip r with
      | [] => if isspace c then [] else [c]
      | r' => c :: r'
      end
  end.

Definition strip (s : str) : str := rstrip (lstrip s).

(** [s.startswith(p)]. *)
Fixpoint startswith (p s : str) : bool :=
  match p, s with
  | [], _ => true
  | _ :: _, [] => false
  | x :: p', y :: s' => N.eqb x y && startswith p' s'
  end.

(** [s.endswith(p)]. *)
Definition endswith (p s : str) : bool := startswith (rev p) (rev s).

(** [s.replace(old, new)]: the occurrences of [old] are found from left to
    right and do not overlap.  [skip] counts the characters of a matched
    occurrence that are still to be passed over. *)
Fixpoint replace_from (old new : str) (skip : nat) (s : str) : str :=
  match s with
  | [] => []
  | c :: r =>
      match skip with
      | S k => replace_from old new k r
      | O =>
          if startswith old s
          then new ++ replace_from old new (length old - 1) r
          else c :: replace_from old new 0 r
      end
  end.

Definition replace (old new s : str) : str :=
  match old with
  | [] => new ++ flat_map (fun c => c :: new) s
  | _ :: _ => replace_from old new 0 s
  end.

(** [sep.join(parts)]. *)
Fixpoint join (sep : str) (parts : list str) : str :=
  match parts with
  | [] => []
  | [p] => p
  | p :: rest => p ++ sep ++ join sep rest
  end.

(** [old] occurs somewhere in [s]. *)
Fixpoint occurs (old s : str) : bool :=
  startswith old s ||
  match s with
  | [] => false
  | _ :: r => occurs old r
  end.

End PyStr.
Import PyStr.

(** ** Reply normalisation (the "Parse JSON" step of the three tabs)

    [[
    raw_output = feedback_raw.strip()
    if raw_output.startswith('```json'):
        raw_output = raw_output.replace('```json', '').replace('```', '').strip()
    elif raw_output.startswith('```'):
        raw_output = raw_output.replace('```', '').strip()
    ]]
    The same five lines stand in tab1, tab2 and tab3. *)

Definition fence : str := u "```".
Definition fence_json : str := u "```json".

Definition raw_output (reply : str) : str :=
  let raw := strip reply in
  if startswith fence_json raw then
    strip (replace fence [] (replace fence_json [] raw))
  else if startswith fence raw then
    strip (replace fence [] raw)
  else raw.


(** ** Python values and exceptions

    What [json.loads] returns: [None], [True]/[False], an [int], a [float],
    a [str], a [list] or a [dict].  A float keeps the text of its literal;
    its value, its [repr] and its truth value are the interpreter's
    ([float_repr] and [float_truth] below).  A dict keeps its items in
    insertion order, as Python's does. *)

Inductive value : Type :=
| PyNone
| PyBool (b : bool)
| PyInt (z : Z)
| PyFloat (lit : str)
| PyStr (s : str)
| PyList (items : list value)
| PyDict (items : list (str * value)).

(** The exceptions the program can meet.  [RecursionError] is what the
    model of [json.loads] would raise if its fuel ran out; it never does
    ([JsonFacts.loads_decides]). *)
Inductive exn : Type :=
| JSONDecodeError (msg : string)
| RecursionError
| AttributeError
| TypeError
| ValueError
| UnicodeDecodeError.

Inductive outcome (A : Type) : Type :=
| Ok (a : A)
| Raise (e : exn).
Arguments Ok {A} a.
Arguments Raise {A} e.

Definition bind {A B} (m : outcome A) (k : A -> outcome B) : outcome B :=
  match m with
  | Ok a => k a
  | Raise e => Raise e
  end.

Notation "x <- m ;; k" := (bind m (fun x => k))
  (at level 61, m at next level, right associativity).

Definition is_ok {A} (m : outcome A) : bool :=
  match m with Ok _ => true | Raise _ => false end.

(** *** Dictionaries *)

Fixpoint dict_lookup (k : str) (d : list (str * value)) : option value :=
  match d with
  | [] => None
  | (k', v) :: d' => if str_eqb k' k then Some v else dict_lookup k d'
  end.

(** [d[k] = v]: an existing key keeps its place, a new one goes last. *)
Fixpoint dict_setitem (k : str) (v : value) (d : list (str * value))
  : list (str * value) :=
  match d with
  | [] => [(k, v)]
  | (k', v') :: d' =>
      if str_eqb k' k then (k', v) :: d' else (k', v') :: dict_setitem k v d'
  end.

(** [x.get(k, default)]: only a dict has the method. *)
Definition py_get (x : value) (k : str) (default : value) : outcome value :=
  match x with
  | PyDict d =>
      match dict_lookup k d with
      | Some v => Ok v
      | None => Ok default
      end
  | _ => Raise AttributeError
  end.

(** ** [json.loads]

    CPython's decoder ([json.decoder] with the C scanner), working on the
    rest of the input instead of an index.  Whitespace is blank, tab, line
    feed and carriage return; strings are scanned in strict mode.  The
    limits of the interpreter (the depth of recursion, the number of
    digits of an int) are left out. *)

Module Json.

Inductive parse (A : Type) : Type :=
| Parsed (a : A) (rest : str)
| Failed (msg : string)
| Exhausted.
Arguments Parsed {A} a rest.
Arguments Failed {A} msg.
Arguments Exhausted {A}.

Definition is_ws (c : char) : bool :=
  ((c =? 32) || (c =? 9) || (c =? 10) || (c =? 13))%N.

Fixpoint skip_ws (s : str) : str :=
  match s with
  | [] => []
  | c :: r => if is_ws c then skip_ws r else s
  end.

Definition is_digit (c : char) : bool := ((48 <=? c) && (c <=? 57))%N.

Definition hex_digit (c : char) : option N :=
  if ((48 <=? c) && (c <=? 57))%N then Some (c - 48)%N
  else if ((97 <=? c) && (c <=? 102))%N then Some (c - 87)%N
  else if ((65 <=? c) && (c <=? 70))%N then Some (c - 55)%N
  else None.

Definition hex4 (a b c d : char) : option N :=
  match hex_digit a, hex_digit b, hex_digit c, hex_digit d with
  | Some x, Some y, Some z, Some w => Some (((x * 16 + y) * 16 + z) * 16 + w)%N
  | _, _, _, _ => None
  end.

(** The character a one-letter escape stands for. *)
Definition simple_escape (e : char) : option char :=
  if (e =? 34)%N then Some 34%N            (* quote *)
  else if (e =? 92)%N then Some 92%N       (* backslash *)
  else if (e =? 47)%N then Some 47%N       (* slash *)
  else if (e =? 98)%N then Some 8%N        (* b: backspace *)
  else if (e =? 102)%N then Some 12%N      (* f: form feed *)
  else if (e =? 110)%N then Some 10%N      (* n: line feed *)
  else if (e =? 114)%N then Some 13%N      (* r: carriage return *)
  else if (e =? 116)%N then Some 9%N       (* t: tab *)
  else None.

Definition is_high_surrogate (c : N) : bool := ((55296 <=? c) && (c <=? 56319))%N.
Definition is_low_surrogate (c : N) : bool := ((56320 <=? c) && (c <=? 57343))%N.
Definition join_surrogates (hi lo : N) : N :=
  (65536 + (hi - 55296) * 1024 + (lo - 56320))%N.

Definition push (c : char) (p : parse str) : parse str :=
  match p with
  | Parsed s rest => Parsed (c :: s) rest
  | Failed msg => Failed msg
  | Exhausted => Exhausted
  end.

(** [scanstring]: the input just after the opening quote; the result is
    the decoded string and the input after the closing quote. *)
Fixpoint scanstring (s : str) : parse str :=
  match s with
  | [] => Failed "Unterminated string starting at"
  | c :: r =>
      if (c =? 34)%N then Parsed [] r
      else if (c =? 92)%N then
        match r with
        | [] => Failed "Unterminated string starting at"
        | e :: r1 =>
            if (e =? 117)%N then
              match r1 with
              | h1 :: h2 :: h3 :: h4 :: ((_ :: _) as r2) =>
                  match hex4 h1 h2 h3 h4 with
                  | None => Failed "Invalid \uXXXX escape"
                  | Some c1 =>
                      match r2 with
                      | b :: v :: l1 :: l2 :: l3 :: l4 :: ((_ :: _) as r3) =>
                          if is_high_surrogate c1 && (b =? 92)%N && (v =? 117)%N
                          then
                            match hex4 l1 l2 l3 l4 with
                            | None => Failed "Invalid \uXXXX escape"
                            | Some c2 =>
                                if is_low_surrogate c2
                                then push (join_surrogates c1 c2) (scanstring r3)
                                else push c1 (scanstring r2)
                            end
                          else push c1 (scanstring r2)
                      | _ => push c1 (scanstring r2)
                      end
                  end
              | _ => Failed "Invalid \uXXXX escape"
              end
            else
              match simple_escape e with
              | Some c' => push c' (scanstring r1)
              | None => Failed "Invalid \escape"
              end
        end
      else if (c <? 32)%N then Failed "Invalid control character at"
      else push c (scanstring r)
  end.

(** Numbers: an optional minus sign, then a zero or a digit 1-9 followed
    by digits; then an optional fraction (a dot and digits) and an optional
    exponent (e or E, an optional sign, digits).  The number is an int when
    it has neither fraction nor exponent. *)
Fixpoint span_digits (s : str) : str * str :=
  match s with
  | [] => ([], [])
  | c :: r =>
      if is_digit c then let (d, rest) := span_digits r in (c :: d, rest)
      else ([], s)
  end.

Definition int_of_digits (d : str) : Z :=
  fold_left (fun acc c => (acc * 10 + Z.of_N (c - 48))%Z) d 0%Z.

(** The integer part (sign included) and the rest. *)
Definition match_integer (s : str) : option (str * str) :=
  let (sign, r) :=
    match s with
    | c :: r' => if (c =? 45)%N then ([c], r') else ([], s)
    | [] => ([], s)
    end in
  match r with
  | c :: r' =>
      if (c =? 48)%N then Some (sign ++ [c], r')
      else if is_digit c then
        let (d, rest) := span_digits r' in Some (sign ++ c :: d, rest)
      else None
  | [] => None
  end.

Definition match_frac (s : str) : option (str * str) :=
  match s with
  | dot :: c :: r =>
      if (dot =? 46)%N && is_digit c then
        let (d, rest) := span_digits r in Some (dot :: c :: d, rest)
      else None
  | _ => None
  end.

Definition match_exp (s : str) : option (str * str) :=
  match s with
  | e :: r =>
      if (e =? 101)%N || (e =? 69)%N then
        let (sign, r1) :=
          match r with
          | c :: r' => if (c =? 45)%N || (c =? 43)%N then ([c], r') else ([], r)
          | [] => ([], r)
          end in
        match span_digits r1 with
        | ([], _) => None
        | (d, rest) => Some (e :: sign ++ d, rest)
        end
      else None
  | [] => None
  end.

Definition match_number (s : str) : option (value * str) :=
  match match_integer s with
  | None => None
  | Some (int, r) =>
      let (frac, r1) :=
        match match_frac r with Some (f, r') => (f, r') | None => ([], r) end in
      let (exp, r2) :=
        match match_exp r1 with Some (e, r') => (e, r') | None => ([], r1) end in
      match frac, exp with
      | [], [] =>
          match int with
          | c :: d =>
              if (c =? 45)%N then Some (PyInt (- int_of_digits d), r2)
              else Some (PyInt (int_of_digits int), r2)
          | [] => None
          end
      | _, _ => Some (PyFloat (int ++ frac ++ exp), r2)
      end
  end.

(** The input after [lit] when the input starts with it. *)
Fixpoint after (lit s : str) : option str :=
  match lit, s with
  | [], _ => Some s
  | x :: lit', y :: s' => if (x =? y)%N then after lit' s' else None
  | _ :: _, [] => None
  end.

(** [scan_once] with the array and object loops.  [fuel] bounds the depth
    of the calls; [loads] below gives enough of it for the whole input. *)
Fixpoint scan_once (fuel : nat) (s : str) {struct fuel} : parse value :=
  match fuel with
  | O => Exhausted
  | S fuel' =>
      match s with
      | [] => Failed "Expecting value"
      | c :: r =>
          if (c =? 34)%N then
            match scanstring r with
            | Parsed k rest => Parsed (PyStr k) rest
            | Failed msg => Failed msg
            | Exhausted => Exhausted
            end
          else if (c =? 123)%N then
            match skip_ws r with
            | c' :: r' =>
                if (c' =? 125)%N then Parsed (PyDict []) r'
                else parse_members fuel' (c' :: r') []
            | [] => parse_members fuel' [] []
            end
          else if (c =? 91)%N then
            match skip_ws r with
            | c' :: r' =>
                if (c' =? 93)%N then Parsed (PyList []) r'
                else parse_items fuel' (c' :: r') []
            | [] => parse_items fuel' [] []
            end
          else
            match after (u "null") s, after (u "true") s, after (u "false") s with
            | Some rest, _, _ => Parsed PyNone rest
            | _, Some rest, _ => Parsed (PyBool true) rest
            | _, _, Some rest => Parsed (PyBool false) rest
            | None, None, None =>
                match after (u "NaN") s, after (u "Infinity") s,
                      after (u "-Infinity") s with
                | Some rest, _, _ => Parsed (PyFloat (u "NaN")) rest
                | _, Some rest, _ => Parsed (PyFloat (u "Infinity")) rest
                | _, _, Some rest => Parsed (PyFloat (u "-Infinity")) rest
                | None, None, None =>
                    match match_number s with
                    | Some (v, rest) => Parsed v rest
                    | None => Failed "Expecting value"
                    end
                end
            end
      end
  end

(** The items of an array, from its first item on; [acc] holds the items
    read so far, the last one first. *)
with parse_items (fuel : nat) (s : str) (acc : list value) {struct fuel}
  : parse value :=
  match fuel with
  | O => Exhausted
  | S fuel' =>
      match scan_once fuel' s with
      | Parsed v rest =>
          match skip_ws rest with
          | c :: r =>
              if (c =? 93)%N then Parsed (PyList (rev (v :: acc))) r
              else if (c =? 44)%N then parse_items fuel' (skip_ws r) (v :: acc)
              else Failed "Expecting ',' delimiter"
          | [] => Failed "Expecting ',' delimiter"
          end
      | Failed msg => Failed msg
      | Exhausted => Exhausted
      end
  end

(** The members of an object, from the quote of its next key on; [acc] is
    the dict built so far. *)
with parse_members (fuel : nat) (s : str) (acc : list (str * value))
  {struct fuel} : parse value :=
  match fuel with
  | O => Exhausted
  | S fuel' =>
      match s with
      | c :: r =>
          if (c =? 34)%N then
            match scanstring r with
            | Parsed key rest =>
                match skip_ws rest with
                | c1 :: r1 =>
                    if (c1 =? 58)%N then
                      match scan_once fuel' (skip_ws r1) with
                      | Parsed v rest' =>
                          let acc' := dict_setitem key v acc in
                          match skip_ws rest' with
                          | c2 :: r2 =>
                              if (c2 =? 125)%N then Parsed (PyDict acc') r2
                              else if (c2 =? 44)%N
                              then parse_members fuel' (skip_ws r2) acc'
                              else Failed "Expecting ',' delimiter"
                          | [] => Failed "Expecting ',' delimiter"
                          end
                      | Failed msg => Failed msg
                      | Exhausted => Exhausted
                      end
                    else Failed "Expecting ':' delimiter"
                | [] => Failed "Expecting ':' delimiter"
                end
            | Failed msg => Failed msg
            | Exhausted => Exhausted
            end
          else Failed "Expecting property name enclosed in double quotes"
      | [] => Failed "Expecting property name enclosed in double quotes"
      end
  end.

(** The fuel [loads] gives: two calls at most for every character. *)
Definition fuel_for (s : str) : nat := 2 * length s + 1.

(** [json.loads(s)] on a [str]. *)
Definition loads (s : str) : outcome value :=
  if startswith [65279%N] s
  then Raise (JSONDecodeError "Unexpected UTF-8 BOM (decode using utf-8-sig)")
  else
    match scan_once (fuel_for s) (skip_ws s) with
    | Parsed v rest =>
        match skip_ws rest with
        | [] => Ok v
        | _ :: _ => Raise (JSONDecodeError "Extra data")
        end
    | Failed msg => Raise (JSONDecodeError msg)
    | Exhausted => Raise RecursionError
    end.

End Json.

(** ** Truth values, iteration and [str()] *)

(** What the interpreter does with floats and with the [repr] of a string;
    the program never looks inside them. *)
Record interpreter : Type := {
  float_repr : str -> str;    (* repr of the float a literal denotes *)
  float_truth : str -> bool;  (* whether that float is non-zero *)
  str_repr : str -> str       (* repr of a str: quoted and escaped *)
}.

(** [str(z)] for an int. *)
Fixpoint uint_digits (d : Decimal.uint) : str :=
  match d with
  | Decimal.Nil => []
  | Decimal.D0 d' => 48%N :: uint_digits d'
  | Decimal.D1 d' => 49%N :: uint_digits d'
  | Decimal.D2 d' => 50%N :: uint_digits d'
  | Decimal.D3 d' => 51%N :: uint_digits d'
  | Decimal.D4 d' => 52%N :: uint_digits d'
  | Decimal.D5 d' => 53%N :: uint_digits d'
  | Decimal.D6 d' => 54%N :: uint_digits d'
  | Decimal.D7 d' => 55%N :: uint_digits d'
  | Decimal.D8 d' => 56%N :: uint_digits d'
  | Decimal.D9 d' => 57%N :: uint_digits d'
  end.

Definition int_str (z : Z) : str :=
  match Z.to_int z with
  | Decimal.Pos d => uint_digits d
  | Decimal.Neg d => 45%N :: uint_digits d
  end.

Section Builtins.

Variable py : interpreter.

(** [bool(x)], as an [if x:] reads it. *)
Definition truthy (x : value) : bool :=
  match x with
  | PyNone => false
  | PyBool b => b
  | PyInt z => negb (Z.eqb z 0)
  | PyFloat lit => float_truth py lit
  | PyStr s => match s with [] => false | _ :: _ => true end
  | PyList l => match l with [] => false | _ :: _ => true end
  | PyDict d => match d with [] => false | _ :: _ => true end
  end.

(** What [for x in v] runs through: the items of a list, the characters of
    a str, the keys of a dict; nothing else can be iterated. *)
Definition py_iter (v : value) : outcome (list value) :=
  match v with
  | PyList l => Ok l
  | PyStr s => Ok (map (fun c => PyStr [c]) s)
  | PyDict d => Ok (map (fun kv => PyStr (fst kv)) d)
  | _ => Raise TypeError
  end.

(** [len(v)]. *)
Definition py_len (v : value) : outcome nat :=
  match v with
  | PyList l => Ok (length l)
  | PyStr s => Ok (length s)
  | PyDict d => Ok (length d)
  | _ => Raise TypeError
  end.

(** [repr(v)]. *)
Fixpoint py_repr (v : value) : str :=
  match v with
  | PyNone => u "None"
  | PyBool true => u "True"
  | PyBool false => u "False"
  | PyInt z => int_str z
  | PyFloat lit => float_repr py lit
  | PyStr s => str_repr py s
  | PyList l => u "[" ++ join (u ", ") (map py_repr l) ++ u "]"
  | PyDict d =>
      u "{" ++
      join (u ", ")
        (map (fun kv => str_repr py (fst kv) ++ u ": " ++ py_repr (snd kv)) d)
      ++ u "}"
  end.

(** [str(v)], which is also what an f-string puts for [{v}]. *)
Definition py_str (v : value) : str :=
  match v with
  | PyStr s => s
  | _ => py_repr v
  end.

End Builtins.

(** ** The three analysis calls

    [model.generate_content(prompt)] followed by [response.text] either
    gives the reply or raises; [Error message] stands for an exception [e]
    with [str(e) = message]. *)

Inductive reply : Type :=
| Text (text : str)
| Error (message : str).

Definition client := str -> reply.

Definition analyze_prompt (resume_text : str) : str :=
  u "
    Analyze this resume and return ONLY a valid JSON object with exactly these fields:
    - sections_detected: array of strings (sections found in the resume)
    - missing_sections: array of strings (important sections that are missing)
    - well_written_sections: array of strings (sections that are well-written)
    - resume_quality_score: number between 0-100 (overall resume quality)
    - skills_sentiment_summary: string (sentiment analysis of skills section)
    - improvement_suggestions: array of strings (specific improvement suggestions)

    Resume:
    " ++ resume_text ++ u "

    Return ONLY the JSON object, no other text or explanation.
    ".

Definition structured_prompt (resume_text : str) : str :=
  q "
    Parse this resume into a standardized, code-readable JSON format with these exact fields:
    {
        'personal_info': {
            'name': 'string',
            'email': 'string',
            'phone': 'string',
            'location': 'string',
            'linkedin': 'string'
        },
        'summary': 'string',
        'experience': [
            {
                'title': 'string',
                'company': 'string',
                'duration': 'string',
                'details': ['array of strings']
            }
        ],
        'education': [
            {
                'degree': 'string',
                'institution': 'string',
                'year': 'string',
                'details': 'string'
            }
        ],
        'skills': ['array of strings'],
        'certifications': ['array of strings'],
        'projects': [
            {
                'name': 'string',
                'description': 'string',
                'technologies': ['array of strings']
            }
        ]
    }

    Resume:
    " ++ resume_text ++ u "

    Return ONLY the JSON object. If a section is not found, use empty string or empty array.
    ".

Definition ats_prompt (resume_text : str) : str :=
  q "
    Analyze this resume for jargon and ATS-friendliness. Return ONLY a valid JSON object:
    {
        'jargon_detected': ['array of jargon phrases found'],
        'filler_phrases': ['array of filler phrases found'],
        'ats_recommendations': ['array of ATS-friendly suggestions'],
        'keyword_suggestions': ['array of industry keywords to add'],
        'formatting_issues': ['array of formatting problems']
    }

    Resume:
    " ++ resume_text ++ u "

    Return ONLY the JSON object.
    ".

(** The reply stripped, or, when the call raised, the text of a JSON object
    with the key [error] into which [str(e)] is put as it is (an f-string).
    The apostrophes of the literals below stand for double quotes. *)
Definition analyze_resume (model : client) (resume_text : str) : str :=
  match model (analyze_prompt resume_text) with
  | Text text => strip text
  | Error e => q "{'error': 'Failed to analyze resume: " ++ e ++ q "'}"
  end.

Definition parse_structured_resume (model : client) (resume_text : str) : str :=
  match model (structured_prompt resume_text) with
  | Text text => strip text
  | Error e => q "{'error': 'Failed to parse resume: " ++ e ++ q "'}"
  end.

Definition detect_jargon_and_ats_issues (model : client) (resume_text : str)
  : str :=
  match model (ats_prompt resume_text) with
  | Text text => strip text
  | Error e => q "{'error': 'Failed to analyze jargon/ATS: " ++ e ++ q "'}"
  end.

(** ** The report

    A story is the list of flowables handed to reportlab.  What reportlab
    does is not part of the program and is taken as given:
    [Paragraph(text, style)] parses the markup of its text and raises a
    ValueError when it is malformed ([markup_ok] says whether the parser
    accepts a text), and [SimpleDocTemplate(buffer,
    pagesize=letter).build(story)] writes the bytes [build story]. *)

Inductive style : Type :=
| Sample (name : string)
| ParagraphStyle (name : string) (parent : style)
                 (fontSize spaceAfter alignment : Z).

Inductive flowable : Type :=
| Paragraph (text : str) (st : style)
| Spacer (width height : Z).

Record reportlab : Type := {
  markup_ok : str -> bool;
  build : list flowable -> list Byte.byte
}.

(** [io.BytesIO]: the bytes and the position of the next read or write. *)
Record BytesIO : Type := {
  getvalue : list Byte.byte;
  tell : nat
}.

Definition new_BytesIO : BytesIO := {| getvalue := []; tell := 0 |}.

Definition write (b : BytesIO) (data : list Byte.byte) : BytesIO :=
  {| getvalue :=
       firstn (tell b) (getvalue b)
       ++ repeat Byte.x00 (tell b - length (getvalue b))
       ++ data
       ++ skipn (tell b + length data) (getvalue b);
     tell := tell b + length data |}.

Definition seek (b : BytesIO) (pos : nat) : BytesIO :=
  {| getvalue := getvalue b; tell := pos |}.

Definition bullet : str := [8226%N; 32%N].

Definition title_style : style :=
  ParagraphStyle "CustomTitle" (Sample "Heading1") 24 30 1.

Section Report.

Variable py : interpreter.
Variable rl : reportlab.

(** [Paragraph(text, style)] for a str. *)
Definition new_paragraph (text : str) (st : style) : outcome flowable :=
  if markup_ok rl text then Ok (Paragraph text st) else Raise ValueError.

(** [Paragraph(text, style)] for any value: reportlab splits the text
    into lines first, which fails with an AttributeError on anything but
    a str. *)
Definition paragraph_of (text : value) (st : style) : outcome flowable :=
  match text with
  | PyStr s => new_paragraph s st
  | _ => Raise AttributeError
  end.

(** The loop that appends one bullet line for each item. *)
Fixpoint append_bullets (story : list flowable) (xs : list value)
  : outcome (list flowable) :=
  match xs with
  | [] => Ok story
  | x :: xs' =>
      p <- new_paragraph (bullet ++ py_str py x) (Sample "Normal") ;;
      append_bullets (story ++ [p]) xs'
  end.

(** A list block that is laid out only when its source is true:
    the heading, one bullet for each item and, but for the last block of
    the report, a spacer. *)
Definition optional_list (story : list flowable) (heading : str)
    (source : value) (spacer : bool) : outcome (list flowable) :=
  if truthy py source then
    h <- new_paragraph heading (Sample "Heading3") ;;
    let story := story ++ [h] in
    xs <- py_iter source ;;
    story <- append_bullets story xs ;;
    Ok (if spacer then story ++ [Spacer 1 12] else story)
  else Ok story.

(** The story [generate_pdf_report] builds.  [structured_data] is a
    parameter of the function and is never read. *)
Definition story_of (analysis_data structured_data ats_data : value)
  : outcome (list flowable) :=
  let story := [] in
  (* Title *)
  title <- new_paragraph (u "Resume Analysis Report") title_style ;;
  let story := story ++ [title] in
  let story := story ++ [Spacer 1 20] in
  (* Quality Score *)
  score <- py_get analysis_data (u "resume_quality_score") (PyStr (u "N/A")) ;;
  p <- new_paragraph (u "<b>Resume Quality Score: " ++ py_str py score
                        ++ u "/100</b>") (Sample "Heading2") ;;
  let story := story ++ [p] in
  let story := story ++ [Spacer 1 12] in
  (* Sections Detected *)
  sections <- py_get analysis_data (u "sections_detected") (PyList []) ;;
  h <- new_paragraph (u "<b>Sections Detected:</b>") (Sample "Heading3") ;;
  let story := story ++ [h] in
  xs <- py_iter sections ;;
  story <- append_bullets story xs ;;
  let story := story ++ [Spacer 1 12] in
  (* Missing Sections *)
  missing <- py_get analysis_data (u "missing_sections") (PyList []) ;;
  story <- optional_list story (u "<b>Missing Sections:</b>") missing true ;;
  (* Skills Sentiment *)
  sentiment <- py_get analysis_data (u "skills_sentiment_summary") (PyStr []) ;;
  story <-
    (if truthy py sentiment then
       h <- new_paragraph (u "<b>Skills Sentiment Analysis:</b>")
              (Sample "Heading3") ;;
       let story := story ++ [h] in
       p <- paragraph_of sentiment (Sample "Normal") ;;
       let story := story ++ [p] in
       Ok (story ++ [Spacer 1 12])
     else Ok story) ;;
  (* Improvement Suggestions *)
  suggestions <- py_get analysis_data (u "improvement_suggestions") (PyList []) ;;
  story <- optional_list story (u "<b>Improvement Suggestions:</b>")
             suggestions true ;;
  (* ATS Recommendations *)
  ats_recs <- py_get ats_data (u "ats_recommendations") (PyList []) ;;
  story <- optional_list story (u "<b>ATS-Friendly Recommendations:</b>")
             ats_recs true ;;
  (* Jargon Detection *)
  jargon <- py_get ats_data (u "jargon_detected") (PyList []) ;;
  optional_list story (u "<b>Jargon/Filler Phrases Detected:</b>") jargon false.

Definition generate_pdf_report (analysis_data structured_data ats_data : value)
  : outcome BytesIO :=
  let buffer := new_BytesIO in
  story <- story_of analysis_data structured_data ats_data ;;
  let buffer := write buffer (build rl story) in
  let buffer := seek buffer 0 in
  Ok buffer.

End Report.

(** ** Text extraction *)

(** [data.decode('utf-8')]: strict UTF-8 (no overlong form, no surrogate,
    nothing above U+10FFFF); a byte order mark is kept as a character. *)
Module Utf8.

Definition cont (b : N) : bool := ((128 <=? b) && (b <=? 191))%N.
Definition within (lo hi b : N) : bool := ((lo <=? b) && (b <=? hi))%N.

Fixpoint decode_N (bs : list N) : option str :=
  match bs with
  | [] => Some []
  | b0 :: r0 =>
      if (b0 <? 128)%N then option_map (cons b0) (decode_N r0)
      else if within 194 223 b0 then
        match r0 with
        | b1 :: r1 =>
            if cont b1
            then option_map (cons ((b0 - 192) * 64 + (b1 - 128))%N) (decode_N r1)
            else None
        | _ => None
        end
      else if within 224 239 b0 then
        match r0 with
        | b1 :: b2 :: r2 =>
            if within (if (b0 =? 224)%N then 160 else 128)
                      (if (b0 =? 237)%N then 159 else 191) b1 && cont b2
            then option_map
                   (cons ((b0 - 224) * 4096 + (b1 - 128) * 64 + (b2 - 128))%N)
                   (decode_N r2)
            else None
        | _ => None
        end
      else if within 240 244 b0 then
        match r0 with
        | b1 :: b2 :: b3 :: r3 =>
            if within (if (b0 =? 240)%N then 144 else 128)
                      (if (b0 =? 244)%N then 143 else 191) b1
               && cont b2 && cont b3
            then option_map
                   (cons ((b0 - 240) * 262144 + (b1 - 128) * 4096
                          + (b2 - 128) * 64 + (b3 - 128))%N)
                   (decode_N r3)
            else None
        | _ => None
        end
      else None
  end.

Definition decode (data : list Byte.byte) : outcome str :=
  match decode_N (map Byte.to_N data) with
  | Some s => Ok s
  | None => Raise UnicodeDecodeError
  end.

(** [s.encode('utf-8')], used to state what a text file holds. *)
Definition byte_of (n : N) : Byte.byte :=
  match Byte.of_N n with
  | Some b => b
  | None => Byte.x00
  end.

Definition encode_char (c : char) : list N :=
  if (c <? 128)%N then [c]
  else if (c <? 2048)%N then [192 + c / 64; 128 + c mod 64]%N
  else if (c <? 65536)%N then
    [224 + c / 4096; 128 + (c / 64) mod 64; 128 + c mod 64]%N
  else
    [240 + c / 262144; 128 + (c / 4096) mod 64; 128 + (c / 64) mod 64;
     128 + c mod 64]%N.

Definition encode (s : str) : list Byte.byte :=
  map byte_of (flat_map encode_char s).

(** A code point a str can be encoded from: a Unicode scalar value. *)
Definition scalar (c : char) : bool :=
  ((c <? 55296) || ((57343 <? c) && (c <? 1114112)))%N.

End Utf8.

(** An uploaded file: its name and the bytes [read()] gives. *)
Record UploadedFile : Type := {
  name : str;
  read : list Byte.byte
}.

Section Extraction.

(** PyMuPDF and python-docx: the texts of the pages of a PDF, in page
    order, and the texts of the paragraphs of a DOCX document, in document
    order; either may fail on bytes it cannot read. *)
Variable fitz_open : list Byte.byte -> outcome (list str).
Variable Document : list Byte.byte -> outcome (list str).

Definition extract_text_from_pdf (pdf_file : UploadedFile) : outcome str :=
  doc <- fitz_open (read pdf_file) ;;
  Ok (join [10%N] doc).

Definition extract_text_from_docx (docx_file : UploadedFile) : outcome str :=
  paragraphs <- Document (read docx_file) ;;
  Ok (join [10%N] paragraphs).

Definition extract_text_from_txt (txt_file : UploadedFile) : outcome str :=
  Utf8.decode (read txt_file).

(** The choice the script makes from the file's name. *)
Definition extract_text (uploaded_file : UploadedFile) : outcome str :=
  if endswith (u ".pdf") (name uploaded_file) then
    extract_text_from_pdf uploaded_file
  else if endswith (u ".docx") (name uploaded_file) then
    extract_text_from_docx uploaded_file
  else
    extract_text_from_txt uploaded_file.

End Extraction.

(** What the specification asks of the extracted text: the texts in their
    order, a line feed between one and the next. *)
Definition concatenated_with_newlines (texts : list str) : str :=
  match texts with
  | [] => []
  | t :: rest => t ++ flat_map (fun t' => 10%N :: t') rest
  end.

(** ** The script

    One run of the script for an uploaded file, as the list of what it
    shows and asks for.  Calls that only display something and cannot
    change the course of the run (progress, captions, metrics, [st.write])
    are left out. *)

Inductive event : Type :=
| generate_content (prompt : str)        (* one call of the model *)
| st_error (msg : str)
| st_error_details (prefix : str) (e : exn)  (* st.error(f'<prefix>{str(e)}') *)
| st_warning (msg : str)
| st_text_area (label text : str)
| st_json (v : value)
| st_download_json (v : value)           (* json.dumps(v, indent=2) for download *)
| st_download_pdf (data : list Byte.byte)
| st_stop
| uncaught (e : exn).

Section Script.

Variable py : interpreter.
Variable rl : reportlab.
Variable fitz_open : list Byte.byte -> outcome (list str).
Variable Document : list Byte.byte -> outcome (list str).
Variable model : client.

(** The [try] body of tab1 after the call: parse, then show the metrics,
    which read the record with [.get] and [len]. *)
Definition tab1_try (feedback_raw : str) : outcome value :=
  analysis_data <- Json.loads (raw_output feedback_raw) ;;
  _ <- py_get analysis_data (u "resume_quality_score") (PyStr (u "N/A")) ;;
  sections <- py_get analysis_data (u "sections_detected") (PyList []) ;;
  _ <- py_len sections ;;
  missing <- py_get analysis_data (u "missing_sections") (PyList []) ;;
  _ <- py_len missing ;;
  Ok analysis_data.

Definition tab1 (feedback_raw : str) : list event * value :=
  match tab1_try feedback_raw with
  | Ok analysis_data => ([st_json analysis_data], analysis_data)
  | Raise e =>
      ([st_warning (u "Could not parse JSON feedback.");
        st_text_area (u "Raw Feedback") feedback_raw;
        st_error_details (u "Error details: ") e],
       PyDict [])
  end.

Definition tab2 (structured_raw : str) : list event * value :=
  match Json.loads (raw_output structured_raw) with
  | Ok structured_data =>
      ([st_json structured_data; st_download_json structured_data],
       structured_data)
  | Raise e =>
      ([st_warning (u "Could not parse structured data.");
        st_text_area (u "Raw Structured Data") structured_raw;
        st_error_details (u "Error details: ") e],
       PyDict [])
  end.

(** [if d.get(k): for x in d[k]: st.write(...)] *)
Definition show_list (d : value) (k : str) : outcome unit :=
  v <- py_get d k PyNone ;;
  if truthy py v then (_ <- py_iter v ;; Ok tt) else Ok tt.

(** What [for phrase in a + b] runs through.  Two lists or two strs are
    joined; the sum of two numbers is a number, which cannot be iterated,
    and nothing else can be added. *)
Definition iter_sum (a b : value) : outcome (list value) :=
  match a, b with
  | PyList x, PyList y => Ok (x ++ y)
  | PyStr x, PyStr y => py_iter (PyStr (x ++ y))
  | _, _ => Raise TypeError
  end.

Definition tab3_try (ats_raw : str) : outcome value :=
  ats_data <- Json.loads (raw_output ats_raw) ;;
  _ <- show_list ats_data (u "ats_recommendations") ;;
  jargon <- py_get ats_data (u "jargon_detected") PyNone ;;
  filler <- py_get ats_data (u "filler_phrases") PyNone ;;
  _ <- (if truthy py jargon || truthy py filler then
          a <- py_get ats_data (u "jargon_detected") (PyList []) ;;
          b <- py_get ats_data (u "filler_phrases") (PyList []) ;;
          _ <- iter_sum a b ;;
          Ok tt
        else Ok tt) ;;
  _ <- show_list ats_data (u "keyword_suggestions") ;;
  Ok ats_data.

Definition tab3 (ats_raw : str) : list event * value :=
  match tab3_try ats_raw with
  | Ok ats_data => ([st_json ats_data], ats_data)
  | Raise e =>
      ([st_warning (u "Could not parse ATS data. Showing raw output:");
        st_text_area (u "Raw ATS Data") ats_raw;
        st_error_details (u "Error details: ") e],
       PyDict [])
  end.

Definition tab4 (analysis_data structured_data ats_data : value) : list event :=
  match generate_pdf_report py rl analysis_data structured_data ats_data with
  | Ok pdf_buffer => [st_download_pdf (getvalue pdf_buffer)]
  | Raise e => [st_error_details (u "Error while generating PDF report: ") e]
  end.

(** The body of [if analyze_button and uploaded_file:]. *)
Definition script (uploaded_file : UploadedFile) : list event :=
  match extract_text fitz_open Document uploaded_file with
  | Raise e => [uncaught e]
  | Ok resume_text =>
      match strip resume_text with
      | [] => [st_error (u "Could not extract text from resume."); st_stop]
      | _ :: _ =>
          let feedback_raw := analyze_resume model resume_text in
          let '(out1, analysis_data) := tab1 feedback_raw in
          let structured_raw := parse_structured_resume model resume_text in
          let '(out2, structured_data) := tab2 structured_raw in
          let ats_raw := detect_jargon_and_ats_issues model resume_text in
          let '(out3, ats_data) := tab3 ats_raw in
          [generate_content (analyze_prompt resume_text)] ++ out1
          ++ [generate_content (structured_prompt resume_text)] ++ out2
          ++ [generate_content (ats_prompt resume_text)] ++ out3
          ++ tab4 analysis_data structured_data ats_data
      end
  end.

(** The model calls of a run. *)
Definition model_calls (trace : list event) : list str :=
  flat_map (fun e => match e with generate_content p => [p] | _ => [] end) trace.

End Script.

(** ** Reading a story

    The lines under a heading: the paragraphs in the body style that follow
    the first heading with the given text, up to the next flowable that is
    not one. *)

Definition is_style (n : string) (st : style) : bool :=
  match st with
  | Sample n' => String.eqb n' n
  | ParagraphStyle _ _ _ _ _ => false
  end.

Fixpoint body_lines (story : list flowable) : list flowable :=
  match story with
  | Paragraph t st :: rest =>
      if is_style "Normal" st then Paragraph t st :: body_lines rest else []
  | _ => []
  end.

Fixpoint lines_under (heading : str) (story : list flowable)
  : option (list flowable) :=
  match story with
  | [] => None
  | Paragraph t st :: rest =>
      if is_style "Heading3" st && str_eqb t heading
      then Some (body_lines rest)
      else lines_under heading rest
  | Spacer _ _ :: rest => lines_under heading rest
  end.

(** The bullet line of one item. *)
Definition bullet_line (py : interpreter) (x : value) : flowable :=
  Paragraph (bullet ++ py_str py x) (Sample "Normal").

(** *** The layout, block by block

    The same story put together from its blocks: the head (title and
    score line), the detected sections, and the five blocks that are laid
    out only when their source is true.  [story_of_layout] below shows
    that [story_of] builds exactly this, and fails exactly when this
    does. *)

Section Layout.

Variable py : interpreter.
Variable rl : reportlab.

Definition score_line (score : value) : flowable :=
  Paragraph (u "<b>Resume Quality Score: " ++ py_str py score ++ u "/100</b>")
    (Sample "Heading2").

Definition title_line : flowable :=
  Paragraph (u "Resume Analysis Report") title_style.

Definition head_block (score : value) : list flowable :=
  [title_line; Spacer 1 20; score_line score; Spacer 1 12].

Definition sections_heading : flowable :=
  Paragraph (u "<b>Sections Detected:</b>") (Sample "Heading3").

Fixpoint bullet_lines (xs : list value) : outcome (list flowable) :=
  match xs with
  | [] => Ok []
  | x :: xs' =>
      p <- new_paragraph rl (bullet ++ py_str py x) (Sample "Normal") ;;
      ps <- bullet_lines xs' ;;
      Ok (p :: ps)
  end.

Definition sections_block (sections : value) : outcome (list flowable) :=
  h <- new_paragraph rl (u "<b>Sections Detected:</b>") (Sample "Heading3") ;;
  xs <- py_iter sections ;;
  ls <- bullet_lines xs ;;
  Ok (h :: ls ++ [Spacer 1 12]).

Definition list_block (heading : str) (source : value) (spacer : bool)
  : outcome (list flowable) :=
  if truthy py source then
    h <- new_paragraph rl heading (Sample "Heading3") ;;
    xs <- py_iter source ;;
    ls <- bullet_lines xs ;;
    Ok (h :: ls ++ (if spacer then [Spacer 1 12] else []))
  else Ok [].

Definition sentiment_block (sentiment : value) : outcome (list flowable) :=
  if truthy py sentiment then
    h <- new_paragraph rl (u "<b>Skills Sentiment Analysis:</b>")
           (Sample "Heading3") ;;
    p <- paragraph_of rl sentiment (Sample "Normal") ;;
    Ok [h; p; Spacer 1 12]
  else Ok [].

(** Everything below the score line. *)
Definition layout_body (analysis_data ats_data : value)
  : outcome (list flowable) :=
  sections <- py_get analysis_data (u "sections_detected") (PyList []) ;;
  b0 <- sections_block sections ;;
  missing <- py_get analysis_data (u "missing_sections") (PyList []) ;;
  b1 <- list_block (u "<b>Missing Sections:</b>") missing true ;;
  sentiment <- py_get analysis_data (u "skills_sentiment_summary") (PyStr []) ;;
  b2 <- sentiment_block sentiment ;;
  suggestions <- py_get analysis_data (u "improvement_suggestions") (PyList []) ;;
  b3 <- list_block (u "<b>Improvement Suggestions:</b>") suggestions true ;;
  ats_recs <- py_get ats_data (u "ats_recommendations") (PyList []) ;;
  b4 <- list_block (u "<b>ATS-Friendly Recommendations:</b>") ats_recs true ;;
  jargon <- py_get ats_data (u "jargon_detected") (PyList []) ;;
  b5 <- list_block (u "<b>Jargon/Filler Phrases Detected:</b>") jargon false ;;
  Ok (b0 ++ b1 ++ b2 ++ b3 ++ b4 ++ b5).

Definition layout (analysis_data ats_data : value) : outcome (list flowable) :=
  title <- new_paragraph rl (u "Resume Analysis Report") title_style ;;
  score <- py_get analysis_data (u "resume_quality_score") (PyStr (u "N/A")) ;;
  p <- new_paragraph rl (u "<b>Resume Quality Score: " ++ py_str py score
                           ++ u "/100</b>") (Sample "Heading2") ;;
  body <- layout_body analysis_data ats_data ;;
  Ok ([title; Spacer 1 20; p; Spacer 1 12] ++ body).

End Layout.

(** The story of three empty records. *)
Definition empty_story : list flowable :=
  [Paragraph (u "Resume Analysis Report") title_style; Spacer 1 20;
   Paragraph (u "<b>Resume Quality Score: N/A/100</b>") (Sample "Heading2");
   Spacer 1 12;
   Paragraph (u "<b>Sections Detected:</b>") (Sample "Heading3");
   Spacer 1 12].

(** Whether a flowable is the heading with the given text. *)
Definition is_heading (heading : str) (f : flowable) : bool :=
  match f with
  | Paragraph t st => is_style "Heading3" st && str_eqb t heading
  | Spacer _ _ => false
  end.

(** What the report shows for a list: its heading is there exactly when
    the list is not empty, and under the heading stand the bullet lines of
    its items, one for each, in their order. *)
Definition renders_list (py : interpreter) (story : list flowable)
    (heading : str) (xs : list value) : Prop :=
  (In (Paragraph heading (Sample "Heading3")) story <-> xs <> [])
  /\ lines_under heading story =
     match xs with
     | [] => None
     | _ :: _ => Some (map (bullet_line py) xs)
     end.

(** The lines a list block puts under its heading, if it is laid out. *)
Definition block_lines (py : interpreter) (source : value)
  : option (list flowable) :=
  if truthy py source then
    match py_iter source with
    | Ok xs => Some (map (bullet_line py) xs)
    | Raise _ => None
    end
  else None.

Definition not_heading (heading : str) (f : flowable) : bool :=
  negb (is_heading heading f).

(** The headings of the four list blocks that are laid out on condition. *)
Definition missing_heading : str := u "<b>Missing Sections:</b>".
Definition suggestions_heading : str := u "<b>Improvement Suggestions:</b>".
Definition ats_heading : str := u "<b>ATS-Friendly Recommendations:</b>".
Definition jargon_heading : str := u "<b>Jargon/Filler Phrases Detected:</b>".

(** The block of the detected sections, once laid out. *)
Definition sections_lines (py : interpreter) (xs : list value) : list flowable :=
  sections_heading :: map (bullet_line py) xs ++ [Spacer 1 12].

(** A story with the values it was laid out from. *)
Inductive laid_out (py : interpreter) (rl : reportlab) (a t : value)
  : list flowable -> Prop :=
| LaidOut score sections xs missing b1 sentiment b2 suggestions b3
          ats_recs b4 jargon b5 :
    py_get a (u "resume_quality_score") (PyStr (u "N/A")) = Ok score ->
    py_get a (u "sections_detected") (PyList []) = Ok sections ->
    py_iter sections = Ok xs ->
    py_get a (u "missing_sections") (PyList []) = Ok missing ->
    list_block py rl missing_heading missing true = Ok b1 ->
    py_get a (u "skills_sentiment_summary") (PyStr []) = Ok sentiment ->
    sentiment_block py rl sentiment = Ok b2 ->
    py_get a (u "improvement_suggestions") (PyList []) = Ok suggestions ->
    list_block py rl suggestions_heading suggestions true = Ok b3 ->
    py_get t (u "ats_recommendations") (PyList []) = Ok ats_recs ->
    list_block py rl ats_heading ats_recs true = Ok b4 ->
    py_get t (u "jargon_detected") (PyList []) = Ok jargon ->
    list_block py rl jargon_heading jargon false = Ok b5 ->
    laid_out py rl a t
      (head_block py score ++ sections_lines py xs
       ++ b1 ++ b2 ++ b3 ++ b4 ++ b5).

(** Records for examples. *)
Definition empty_record : value := PyDict [].

Definition sample_analysis : value :=
  PyDict [(u "resume_quality_score", PyInt 42);
          (u "sections_detected", PyList [PyStr (u "Skills")]);
          (u "missing_sections", PyList [PyStr (u "Certifications")])].

Definition sample_ats : value :=
  PyDict [(u "jargon_detected", PyList [PyStr (u "synergy")]);
          (u "filler_phrases", PyList [PyStr (u "team player")])].

Definition sample_story : list flowable :=
  [Paragraph (u "Resume Analysis Report") title_style; Spacer 1 20;
   Paragraph (u "<b>Resume Quality Score: 42/100</b>") (Sample "Heading2");
   Spacer 1 12;
   Paragraph (u "<b>Sections Detected:</b>") (Sample "Heading3");
   Paragraph (bullet ++ u "Skills") (Sample "Normal");
   Spacer 1 12;
   Paragraph (u "<b>Missing Sections:</b>") (Sample "Heading3");
   Paragraph (bullet ++ u "Certifications") (Sample "Normal");
   Spacer 1 12;
   Paragraph (u "<b>Jargon/Filler Phrases Detected:</b>") (Sample "Heading3");
   Paragraph (bullet ++ u "synergy") (Sample "Normal")].

(** Files for examples: a text file, and a file of two lines that the
    stand-in parsers read as two pages or two paragraphs. *)
Definition sample_text : str := u "Experience: none. Skills: Python.".

Definition sample_txt : UploadedFile :=
  {| name := u "cv.txt"; read := Utf8.encode sample_text |}.

Definition sample_pdf : UploadedFile :=
  {| name := u "cv.pdf";
     read := Utf8.encode (u "Skills" ++ [10%N] ++ u "Python") |}.

Definition blank_txt : UploadedFile :=
  {| name := u "blank.txt"; read := Utf8.encode [32%N; 10%N; 9%N] |}.

(** A model client that fails with the given message whatever it is
    asked, and one that answers with the given text. *)
Definition failing (message : str) : client := fun _ => Error message.
Definition answering (text : str) : client := fun _ => Text text.

(** A message that can stand between double quotes in JSON as it is: no
    double quote, no backslash, no control character. *)
Definition plain_char (c : char) : bool :=
  (negb (c =? 34) && negb (c =? 92) && (32 <=? c))%N.

Definition plain_text (s : str) : bool := forallb plain_char s.

(** [del d[k]]. *)
Fixpoint dict_delitem (k : str) (d : list (str * value)) : list (str * value) :=
  match d with
  | [] => []
  | (k', v) :: d' =>
      if str_eqb k' k then dict_delitem k d' else (k', v) :: dict_delitem k d'
  end.

(** The three forms of a reply the specification names. *)
Definition fenced_json (body : str) : str :=
  fence_json ++ [10%N] ++ body ++ [10%N] ++ fence.

Definition fenced (body : str) : str :=
  fence ++ [10%N] ++ body ++ [10%N] ++ fence.

Definition backtick : char := 96%N.

(** ** Stand-ins for examples

    An interpreter that is right on the floats and strs the examples use
    (a float is shown by its literal, a str between apostrophes), a
    document engine that knows the bold tag only and writes a header and
    one line for each flowable, and parsers of PDF and DOCX files that take every line of the file for
    a page or a paragraph. *)

Definition sample_interpreter : interpreter :=
  {| float_repr := fun lit => lit;
     float_truth := fun lit => existsb (fun c => (49 <=? c) && (c <=? 57))%N lit;
     str_repr := fun s => 39%N :: s ++ [39%N] |}.

Definition sample_build (story : list flowable) : list Byte.byte :=
  map Utf8.byte_of (u "%PDF-1.4")
  ++ flat_map
       (fun f =>
          match f with
          | Paragraph t _ => Byte.x0a :: Utf8.encode t
          | Spacer _ _ => [Byte.x0a]
          end) story.

(** A text is taken for good markup when no angle bracket is left once
    the bold tags are taken out. *)
Definition sample_markup_ok (text : str) : bool :=
  negb (occurs (u "<") (replace (u "</b>") [] (replace (u "<b>") [] text))).

Definition sample_reportlab : reportlab :=
  {| markup_ok := sample_markup_ok; build := sample_build |}.

Fixpoint split_lines (acc : str) (s : str) : list str :=
  match s with
  | [] => [rev acc]
  | c :: r => if (c =? 10)%N then rev acc :: split_lines [] r
              else split_lines (c :: acc) r
  end.

Definition sample_parser (data : list Byte.byte) : outcome (list str) :=
  s <- Utf8.decode data ;; Ok (split_lines [] s).

(** ** More to say about the report and the run *)

(** The keys the renderer reads in the quality record and in the ATS
    record. *)
Definition analysis_keys : list str :=
  [u "resume_quality_score"; u "sections_detected"; u "missing_sections";
   u "skills_sentiment_summary"; u "improvement_suggestions"].

Definition ats_keys : list str := [u "ats_recommendations"; u "jargon_detected"].

(** Two dicts with the same values under the given keys. *)
Definition agree_on (keys : list str) (d1 d2 : list (str * value)) : Prop :=
  forall k, In k keys -> dict_lookup k d1 = dict_lookup k d2.

Definition sections_text : str := u "<b>Sections Detected:</b>".
Definition sentiment_heading : str := u "<b>Skills Sentiment Analysis:</b>".

(** The record a failed call leaves behind once its reply is parsed. *)
Definition error_record (message : str) : value :=
  PyDict [(u "error", PyStr message)].

(** The texts of the headings of a story, in their order. *)
Definition headings (story : list flowable) : list str :=
  flat_map
    (fun f =>
       match f with
       | Paragraph t st => if is_style "Heading3" st then [t] else []
       | Spacer _ _ => []
       end) story.

(** A heading that is there on condition. *)
Definition heading_if (b : bool) (heading : str) : list str :=
  if b then [heading] else [].



(** The characters a JSON value can begin with: a quote, a brace, a
    bracket, a minus sign, a digit, and the first letters of null, true,
    false, NaN and Infinity. *)
Definition value_start (c : char) : bool :=
  ((c =? 34) || (c =? 123) || (c =? 91) || (c =? 45) || Json.is_digit c
   || (c =? 110) || (c =? 116) || (c =? 102) || (c =? 78) || (c =? 73))%N.


(** A text file in Latin-1: the letters c and e with an acute accent,
    then a blank. *)
Definition latin1_txt : UploadedFile :=
  {| name := u "cv.txt"; read := [Byte.x63; Byte.xe9; Byte.x20] |}.

(** * Properties *)

Unset Implicit Arguments.

(** ** Strings *)

Lemma str_eqb_refl (a : str) : str_eqb a a = true.
Proof.
  induction a as [|x a IH]; simpl; [reflexivity|].
  now rewrite N.eqb_refl.
Qed.

Lemma str_eqb_eq (a b : str) : str_eqb a b = true <-> a = b.
Proof.
  split.
  - revert b; induction a as [|x a IH]; intros [|y b]; simpl; try discriminate.
    + reflexivity.
    + intros H. apply andb_true_iff in H as [H1 H2].
      apply N.eqb_eq in H1. apply IH in H2. now subst.
  - intros ->. apply str_eqb_refl.
Qed.

Lemma startswith_app (p s : str) : startswith p (p ++ s) = true.
Proof.
  induction p as [|x p IH]; simpl; [reflexivity|].
  now rewrite N.eqb_refl.
Qed.

Lemma startswith_inv (p s : str) :
  startswith p s = true -> exists r, s = p ++ r.
Proof.
  revert s; induction p as [|x p IH]; intros s H.
  - now exists s.
  - destruct s as [|y s]; simpl in H; [discriminate|].
    apply andb_true_iff in H as [H1 H2].
    apply N.eqb_eq in H1. destruct (IH _ H2) as [r ->].
    exists r. now subst.
Qed.

(** A prefix of a prefix. *)
Lemma startswith_app_l (p s t : str) :
  startswith p s = true -> startswith p (s ++ t) = true.
Proof.
  intros H. destruct (startswith_inv _ _ H) as [r ->].
  rewrite <- app_assoc. apply startswith_app.
Qed.

Lemma startswith_fence_json (s : str) :
  startswith fence_json s = true -> startswith fence s = true.
Proof.
  intros H. destruct (startswith_inv _ _ H) as [r ->].
  change fence_json with (fence ++ u "json").
  rewrite <- app_assoc. apply startswith_app.
Qed.

(** *** [replace]: its three equations and its induction principle *)

Lemma replace_from_skip (old new l s : str) :
  replace_from old new (length l) (l ++ s) = replace_from old new 0 s.
Proof.
  induction l as [|x l IH]; simpl; [|exact IH].
  destruct s; reflexivity.
Qed.

Lemma replace_nil (old new : str) :
  old <> [] -> replace old new [] = [].
Proof. destruct old; [congruence|reflexivity]. Qed.

Lemma replace_match (old new s : str) :
  old <> [] -> replace old new (old ++ s) = new ++ replace old new s.
Proof.
  destruct old as [|x old]; [congruence|]. intros _.
  unfold replace.
  change ((x :: old) ++ s) with (x :: (old ++ s)).
  cbn [replace_from].
  change (x :: old ++ s) with ((x :: old) ++ s).
  rewrite startswith_app.
  replace (length (x :: old) - 1) with (length old) by (simpl; lia).
  now rewrite replace_from_skip.
Qed.

Lemma replace_skip (old new : str) (c : char) (s : str) :
  old <> [] -> startswith old (c :: s) = false ->
  replace old new (c :: s) = c :: replace old new s.
Proof.
  destruct old as [|x old]; [congruence|]. intros _ H.
  unfold replace. cbn [replace_from]. now rewrite H.
Qed.

Lemma replace_ind (old : str) (Hold : old <> []) (P : str -> Prop) :
  P [] ->
  (forall c s, startswith old (c :: s) = false -> P s -> P (c :: s)) ->
  (forall s, P s -> P (old ++ s)) ->
  forall s, P s.
Proof.
  intros Hnil Hskip Hmatch s.
  assert (H : forall n s, length s <= n -> P s).
  { clear s. induction n as [|n IH]; intros s Hn.
    - destruct s; [exact Hnil|simpl in Hn; lia].
    - destruct s as [|c s]; [exact Hnil|].
      destruct (startswith old (c :: s)) eqn:E.
      + destruct (startswith_inv _ _ E) as [r Hr]. rewrite Hr.
        apply Hmatch, IH.
        apply (f_equal (@length _)) in Hr. rewrite length_app in Hr.
        destruct old; [congruence|]. simpl in *. lia.
      + apply Hskip; [exact E|]. apply IH. simpl in Hn. lia. }
  apply (H (length s)). lia.
Qed.

(** Nothing is replaced where [old] does not occur. *)
Lemma replace_absent (old new s : str) :
  old <> [] -> occurs old s = false -> replace old new s = s.
Proof.
  intros Hold. induction s as [|c s IH]; intros H.
  - now apply replace_nil.
  - simpl in H. apply orb_false_iff in H as [H1 H2].
    rewrite replace_skip by assumption. now rewrite IH.
Qed.

(** *** Occurrences *)

Lemma occurs_cons (old : str) (c : char) (s : str) :
  occurs old (c :: s) = startswith old (c :: s) || occurs old s.
Proof. reflexivity. Qed.

Lemma occurs_app_r (old a s : str) :
  occurs old s = true -> occurs old (a ++ s) = true.
Proof.
  intros H. induction a as [|x a IH]; [exact H|].
  simpl app. rewrite occurs_cons, IH. apply orb_true_r.
Qed.

Lemma occurs_app_l (old s b : str) :
  occurs old s = true -> occurs old (s ++ b) = true.
Proof.
  induction s as [|x s IH]; intros H.
  - simpl in H. rewrite orb_false_r in H.
    destruct old; [|discriminate]. destruct b; reflexivity.
  - simpl app. rewrite occurs_cons in *.
    apply orb_true_iff in H as [H|H].
    + change (x :: s ++ b) with ((x :: s) ++ b).
      now rewrite (startswith_app_l _ _ _ H).
    + rewrite (IH H). apply orb_true_r.
Qed.

Lemma occurs_startswith (old s : str) :
  startswith old s = true -> occurs old s = true.
Proof. intros H. destruct s; simpl in *; now rewrite H. Qed.

(** *** [strip] *)

#[local] Arguments N.eqb : simpl never.
#[local] Arguments isspace : simpl never.

Lemma lstrip_head (s : str) :
  lstrip s = [] \/ exists c r, lstrip s = c :: r /\ isspace c = false.
Proof.
  induction s as [|c s IH]; simpl; [now left|].
  destruct (isspace c) eqn:E; [exact IH|].
  right. now exists c, s.
Qed.

Lemma lstrip_keep (c : char) (r : str) :
  isspace c = false -> lstrip (c :: r) = c :: r.
Proof. intros H. simpl. now rewrite H. Qed.

Lemma rstrip_cons_keep (c : char) (r : str) :
  isspace c = false -> rstrip (c :: r) = c :: rstrip r.
Proof. intros H. simpl. rewrite H. now destruct (rstrip r). Qed.

Lemma rstrip_cons (c : char) (r : str) :
  rstrip (c :: r) =
  match rstrip r with
  | [] => if isspace c then [] else [c]
  | y :: t => c :: y :: t
  end.
Proof. reflexivity. Qed.

Lemma rstrip_idem (s : str) : rstrip (rstrip s) = rstrip s.
Proof.
  induction s as [|c s IH]; [reflexivity|].
  rewrite (rstrip_cons c s). destruct (rstrip s) as [|y r'] eqn:E.
  - destruct (isspace c) eqn:Hc; [reflexivity|]. simpl. now rewrite Hc.
  - now rewrite rstrip_cons, IH.
Qed.

Lemma rstrip_snoc_space (s : str) (c : char) :
  isspace c = true -> rstrip (s ++ [c]) = rstrip s.
Proof.
  intros H. induction s as [|x s IH]; simpl.
  - now rewrite H.
  - now rewrite IH.
Qed.

Lemma rstrip_snoc_keep (s : str) (c : char) :
  isspace c = false -> rstrip (s ++ [c]) = s ++ [c].
Proof.
  intros H. induction s as [|x s IH]; simpl.
  - now rewrite H.
  - rewrite IH. destruct (s ++ [c]) eqn:E; [|reflexivity].
    now destruct s.
Qed.

Lemma strip_idem (s : str) : strip (strip s) = strip s.
Proof.
  unfold strip.
  destruct (lstrip_head s) as [E|(c & r & E & Hc)]; rewrite E.
  - reflexivity.
  - rewrite (rstrip_cons_keep _ _ Hc), (lstrip_keep _ _ Hc).
    rewrite <- (rstrip_cons_keep _ _ Hc). apply rstrip_idem.
Qed.

(** A line feed on either side is stripped with the rest. *)
Lemma strip_between_newlines (s : str) :
  strip (10%N :: s ++ [10%N]) = strip s.
Proof.
  unfold strip. change (lstrip (10%N :: s ++ [10%N])) with (lstrip (s ++ [10%N])).
  induction s as [|c s IH]; [reflexivity|].
  simpl. destruct (isspace c) eqn:E; [exact IH|].
  change (c :: s ++ [10%N]) with ((c :: s) ++ [10%N]).
  now apply rstrip_snoc_space.
Qed.

(** [strip] leaves a text alone that begins and ends with a character
    that is not a space. *)
Lemma strip_keep (c : char) (s : str) (d : char) :
  isspace c = false -> isspace d = false ->
  strip (c :: s ++ [d]) = c :: s ++ [d].
Proof.
  intros Hc Hd. unfold strip. rewrite (lstrip_keep _ _ Hc).
  change (c :: s ++ [d]) with ((c :: s) ++ [d]).
  now apply rstrip_snoc_keep.
Qed.

(** What [strip] gives is a piece of the text. *)
Lemma occurs_lstrip (old s : str) :
  occurs old s = false -> occurs old (lstrip s) = false.
Proof.
  induction s as [|c s IH]; intros H; [exact H|].
  simpl lstrip. destruct (isspace c); [|exact H].
  rewrite occurs_cons in H. apply orb_false_iff in H as [_ H]. now apply IH.
Qed.

Lemma startswith_rstrip (old s : str) :
  startswith old (rstrip s) = true -> startswith old s = true.
Proof.
  revert old. induction s as [|c s IH]; intros old H; [exact H|].
  destruct old as [|x old]; [reflexivity|].
  simpl in H. destruct (rstrip s) as [|y r'] eqn:E.
  - destruct (isspace c); [discriminate|].
    simpl in H. apply andb_true_iff in H as [H1 H2].
    destruct old; [|discriminate].
    simpl. now rewrite H1.
  - simpl in H. apply andb_true_iff in H as [H1 H2].
    simpl. rewrite H1. simpl. apply IH. exact H2.
Qed.

Lemma occurs_rstrip (old s : str) :
  occurs old s = false -> occurs old (rstrip s) = false.
Proof.
  induction s as [|c s IH]; intros H; [exact H|].
  rewrite occurs_cons in H. apply orb_false_iff in H as [H1 H2].
  specialize (IH H2).
  destruct (occurs old (rstrip (c :: s))) eqn:E; [|reflexivity].
  exfalso.
  assert (Hs : startswith old (rstrip (c :: s)) = false).
  { destruct (startswith old (rstrip (c :: s))) eqn:E'; [|reflexivity].
    apply startswith_rstrip in E'. congruence. }
  rewrite rstrip_cons in E, Hs. destruct (rstrip s) as [|y r'] eqn:Er.
  - destruct (isspace c).
    + simpl in E. rewrite orb_false_r in E. congruence.
    + rewrite occurs_cons, Hs, orb_false_l in E. congruence.
  - rewrite occurs_cons, Hs, orb_false_l in E. congruence.
Qed.

Lemma occurs_strip (old s : str) :
  occurs old s = false -> occurs old (strip s) = false.
Proof. intros H. now apply occurs_rstrip, occurs_lstrip. Qed.

(** [strip] gives the empty string exactly on the texts made of spaces. *)
Lemma strip_blank (s : str) :
  strip s = [] <-> Forall (fun c => isspace c = true) s.
Proof.
  unfold strip. induction s as [|c s IH]; simpl.
  - split; [constructor|reflexivity].
  - destruct (isspace c) eqn:E.
    + rewrite IH. split; [now constructor|now inversion 1].
    + split.
      * rewrite (rstrip_cons_keep _ _ E). discriminate.
      * inversion 1. congruence.
Qed.

(** ** The fence *)

Lemma fence_eq : fence = [backtick; backtick; backtick].
Proof. reflexivity. Qed.

Lemma fence_nonempty : fence <> [].
Proof. discriminate. Qed.

Lemma fence_json_nonempty : fence_json <> [].
Proof. discriminate. Qed.

Lemma backtick_eqb (c : char) : c <> backtick -> (backtick =? c)%N = false.
Proof. intros H. apply N.eqb_neq. congruence. Qed.

(** A text that does not start with the fence still does not when
    something is put after it, if it ends before a character that is not
    a backtick. *)
Lemma startswith_fence_snoc (s : str) (c : char) (rest : str) :
  startswith fence s = false -> c <> backtick ->
  startswith fence (s ++ c :: rest) = false.
Proof.
  intros H Hc. apply backtick_eqb in Hc. rewrite fence_eq in *.
  destruct s as [|x [|y [|z s]]]; cbn [app startswith] in *.
  - now rewrite Hc.
  - rewrite Hc. cbn. now rewrite andb_false_r.
  - rewrite Hc. cbn. now rewrite !andb_false_r.
  - exact H.
Qed.

Lemma occurs_fence_snoc (s : str) (c : char) :
  occurs fence s = false -> c <> backtick -> occurs fence (s ++ [c]) = false.
Proof.
  intros H Hc. induction s as [|x s IH].
  - cbn [app]. rewrite occurs_cons. cbn [occurs].
    rewrite fence_eq. cbn [startswith]. rewrite (backtick_eqb _ Hc). reflexivity.
  - rewrite occurs_cons in H. apply orb_false_iff in H as [H1 H2].
    cbn [app]. rewrite occurs_cons, (IH H2), orb_false_r.
    change (x :: s ++ [c]) with ((x :: s) ++ [c]).
    now apply startswith_fence_snoc.
Qed.

(** [replace] passes over a stretch in which the fence does not occur and
    which ends with a character that is not a backtick, whether it looks
    for the fence or for the tagged fence. *)
Lemma replace_keep (old new body : str) (c : char) (rest : str) :
  old <> [] ->
  (forall t, startswith old t = true -> startswith fence t = true) ->
  occurs fence (body ++ [c]) = false -> c <> backtick ->
  replace old new ((body ++ [c]) ++ rest) = (body ++ [c]) ++ replace old new rest.
Proof.
  intros Hold Hfence Hocc Hc.
  induction body as [|x body IH].
  - cbn [app]. rewrite replace_skip; [reflexivity|exact Hold|].
    destruct (startswith old (c :: rest)) eqn:E; [|reflexivity].
    apply Hfence in E. rewrite fence_eq in E. cbn [startswith] in E.
    rewrite (backtick_eqb _ Hc) in E. discriminate.
  - cbn [app] in *. rewrite occurs_cons in Hocc.
    apply orb_false_iff in Hocc as [H1 H2].
    rewrite replace_skip; [now rewrite (IH H2)|exact Hold|].
    destruct (startswith old (x :: (body ++ [c]) ++ rest)) eqn:E; [|reflexivity].
    apply Hfence in E.
    assert (H0 : startswith fence (x :: body) = false).
    { destruct (startswith fence (x :: body)) eqn:E0; [|reflexivity].
      apply (startswith_app_l _ _ [c]) in E0. cbn [app] in E0. congruence. }
    pose proof (startswith_fence_snoc (x :: body) c rest H0 Hc) as H3.
    cbn [app] in H3. rewrite <- app_assoc in E. cbn [app] in E. congruence.
Qed.

(** After [replace] has deleted the fence, the fence occurs nowhere. *)
Lemma replace_fence_head2 (s : str) :
  startswith [backtick; backtick] s = false ->
  startswith [backtick; backtick] (replace fence [] s) = false.
Proof.
  intros H. destruct s as [|x [|y s]].
  - reflexivity.
  - rewrite replace_skip, replace_nil; try exact fence_nonempty.
    + cbn [startswith]. now rewrite andb_false_r.
    + rewrite fence_eq. cbn [startswith]. now rewrite !andb_false_r.
  - cbn [startswith] in H. rewrite andb_true_r in H.
    destruct (backtick =? x)%N eqn:Ex.
    + cbn [andb] in H.
      rewrite replace_skip; try exact fence_nonempty.
      2:{ rewrite fence_eq. cbn [startswith]. now rewrite Ex, H. }
      rewrite replace_skip; try exact fence_nonempty.
      2:{ rewrite fence_eq. cbn [startswith]. now rewrite H. }
      cbn [startswith]. now rewrite Ex, H.
    + rewrite replace_skip; try exact fence_nonempty.
      2:{ rewrite fence_eq. cbn [startswith]. now rewrite Ex. }
      cbn [startswith]. now rewrite Ex.
Qed.

Lemma occurs_replace_fence (s : str) :
  occurs fence (replace fence [] s) = false.
Proof.
  induction s as [|c s Hskip IH|s IH] using (replace_ind fence fence_nonempty).
  - reflexivity.
  - rewrite replace_skip by (exact fence_nonempty || exact Hskip).
    rewrite occurs_cons, IH, orb_false_r.
    rewrite fence_eq in *. cbn [startswith] in *.
    destruct (backtick =? c)%N; [|reflexivity].
    cbn [andb] in *. rewrite <- fence_eq. now apply replace_fence_head2.
  - rewrite replace_match by exact fence_nonempty. exact IH.
Qed.

(** [replace] passes over a stretch without backticks. *)
Lemma replace_plain (old new body rest : str) :
  old <> [] ->
  (forall t, startswith old t = true -> startswith fence t = true) ->
  Forall (fun c => c <> backtick) body ->
  replace old new (body ++ rest) = body ++ replace old new rest.
Proof.
  intros Hold Hfence Hbody. induction Hbody as [|x body Hx _ IH]; [reflexivity|].
  cbn [app]. rewrite replace_skip; [now rewrite IH|exact Hold|].
  destruct (startswith old (x :: body ++ rest)) eqn:E; [|reflexivity].
  apply Hfence in E. rewrite fence_eq in E. cbn [startswith] in E.
  rewrite (backtick_eqb _ Hx) in E. discriminate.
Qed.

Lemma replace_fence_fence : replace fence [] fence = [].
Proof. reflexivity. Qed.

Lemma replace_fence_json_fence : replace fence_json [] fence = fence.
Proof. reflexivity. Qed.

Lemma isspace_backtick : isspace backtick = false.
Proof. reflexivity. Qed.

Lemma fence_json_eq : fence_json = fence ++ u "json".
Proof. reflexivity. Qed.

Lemma strip_fenced_json (body : str) : strip (fenced_json body) = fenced_json body.
Proof.
  replace (fenced_json body)
    with (backtick :: (u "``json" ++ [10%N] ++ body ++ [10%N; backtick; backtick])
                      ++ [backtick]).
  - apply strip_keep; apply isspace_backtick.
  - unfold fenced_json. rewrite fence_json_eq, fence_eq.
    cbn [app u]. rewrite <- !app_assoc. reflexivity.
Qed.

Lemma strip_fenced (body : str) : strip (fenced body) = fenced body.
Proof.
  replace (fenced body)
    with (backtick :: (u "``" ++ [10%N] ++ body ++ [10%N; backtick; backtick])
                      ++ [backtick]).
  - apply strip_keep; apply isspace_backtick.
  - unfold fenced. rewrite fence_eq.
    cbn [app u]. rewrite <- !app_assoc. reflexivity.
Qed.

(** ** Reply normalisation *)

Lemma raw_output_unfenced (reply : str) :
  startswith fence (strip reply) = false -> raw_output reply = strip reply.
Proof.
  intros H. unfold raw_output. cbv zeta. rewrite H.
  destruct (startswith fence_json (strip reply)) eqn:E; [|reflexivity].
  apply startswith_fence_json in E. congruence.
Qed.

Lemma raw_output_fenced (reply : str) :
  startswith fence (strip reply) = true ->
  exists t, raw_output reply = strip (replace fence [] t).
Proof.
  intros H. unfold raw_output. cbv zeta. rewrite H.
  destruct (startswith fence_json (strip reply)); eauto.
Qed.

Lemma raw_output_no_fence (reply : str) :
  startswith fence (strip reply) = true ->
  occurs fence (raw_output reply) = false.
Proof.
  intros H. destruct (raw_output_fenced _ H) as [t ->].
  apply occurs_strip, occurs_replace_fence.
Qed.

Lemma raw_output_absent (body : str) :
  occurs fence body = false -> raw_output body = strip body.
Proof.
  intros H. apply raw_output_unfenced.
  destruct (startswith fence (strip body)) eqn:E; [|reflexivity].
  apply occurs_startswith in E. rewrite occurs_strip in E; congruence.
Qed.

Lemma raw_output_idem (reply : str) :
  raw_output (raw_output reply) = raw_output reply.
Proof.
  destruct (startswith fence (strip reply)) eqn:E.
  - pose proof (raw_output_no_fence _ E) as Hno.
    destruct (raw_output_fenced _ E) as [t Ht].
    rewrite (raw_output_absent _ Hno). rewrite Ht. apply strip_idem.
  - rewrite (raw_output_unfenced _ E).
    rewrite raw_output_unfenced; rewrite strip_idem; [reflexivity|exact E].
Qed.

Lemma occurs_fence_between_newlines (body : str) :
  occurs fence body = false -> occurs fence ((10%N :: body) ++ [10%N]) = false.
Proof.
  intros H. apply occurs_fence_snoc; [|discriminate].
  rewrite occurs_cons, H. reflexivity.
Qed.

Lemma between_newlines_assoc (body rest : str) :
  [10%N] ++ body ++ [10%N] ++ rest = ((10%N :: body) ++ [10%N]) ++ rest.
Proof. cbn [app]. now rewrite <- app_assoc. Qed.

Ltac side_conditions H :=
  first [ exact fence_json_nonempty
        | exact fence_nonempty
        | exact startswith_fence_json
        | exact (fun t Ht => Ht)
        | exact (occurs_fence_between_newlines _ H)
        | discriminate ].

Lemma raw_output_fenced_json_form (body : str) :
  occurs fence body = false -> raw_output (fenced_json body) = strip body.
Proof.
  intros H. unfold raw_output. cbv zeta.
  rewrite strip_fenced_json. unfold fenced_json.
  rewrite startswith_app.
  rewrite replace_match by exact fence_json_nonempty. rewrite app_nil_l.
  rewrite between_newlines_assoc.
  rewrite (replace_keep fence_json) by side_conditions H.
  rewrite replace_fence_json_fence.
  rewrite (replace_keep fence) by side_conditions H.
  rewrite replace_fence_fence, app_nil_r.
  cbn [app]. apply strip_between_newlines.
Qed.

Lemma raw_output_fenced_form (body : str) :
  occurs fence body = false -> raw_output (fenced body) = strip body.
Proof.
  intros H. unfold raw_output. cbv zeta.
  rewrite strip_fenced. unfold fenced.
  replace (startswith fence_json (fence ++ [10%N] ++ body ++ [10%N] ++ fence))
    with false by reflexivity.
  rewrite startswith_app.
  rewrite replace_match by exact fence_nonempty. rewrite app_nil_l.
  rewrite between_newlines_assoc.
  rewrite (replace_keep fence) by side_conditions H.
  rewrite replace_fence_fence, app_nil_r.
  cbn [app]. apply strip_between_newlines.
Qed.

(** A fence in the middle of a fenced reply goes with the two delimiters. *)
Lemma raw_output_inner_fence (a b : str) :
  Forall (fun c => c <> backtick) a -> Forall (fun c => c <> backtick) b ->
  raw_output (fenced (a ++ fence ++ b)) = strip (a ++ b).
Proof.
  intros Ha Hb. unfold raw_output. cbv zeta.
  rewrite strip_fenced. unfold fenced.
  replace (startswith fence_json (fence ++ [10%N] ++ (a ++ fence ++ b) ++ [10%N] ++ fence))
    with false by reflexivity.
  rewrite startswith_app.
  rewrite replace_match by exact fence_nonempty. rewrite app_nil_l.
  replace ([10%N] ++ (a ++ fence ++ b) ++ [10%N] ++ fence)
    with ((10%N :: a) ++ fence ++ (b ++ [10%N]) ++ fence)
    by (cbn [app]; now rewrite <- !app_assoc).
  rewrite (replace_plain fence) by
    first [exact fence_nonempty | exact (fun t Ht => Ht)
          | constructor; [discriminate|exact Ha]].
  rewrite replace_match by exact fence_nonempty. rewrite app_nil_l.
  rewrite (replace_plain fence) by
    first [exact fence_nonempty | exact (fun t Ht => Ht)
          | apply Forall_app; split; [exact Hb|constructor; [discriminate|constructor]]].
  rewrite replace_fence_fence, app_nil_r.
  cbn [app]. rewrite app_assoc.
  apply strip_between_newlines.
Qed.

(** C10: a reply that, once stripped, does not begin with the fence is
    left as it is, so that a fence at its end only reaches the JSON parser
    (which then refuses the text); in a reply that does begin with the
    fence no fence is left anywhere: one inside the body, and so one
    inside a JSON string, is deleted like the two delimiters. *)
Theorem fence_removal_all_or_nothing :
  (forall reply,
     if startswith fence (strip reply)
     then occurs fence (raw_output reply) = false
     else raw_output reply = strip reply)
  /\ (forall a b,
        Forall (fun c => c <> backtick) a -> Forall (fun c => c <> backtick) b ->
        raw_output (fenced (a ++ fence ++ b)) = strip (a ++ b))
  /\ (let reply := q "{'a': 1}" ++ [10%N] ++ fence in
      raw_output reply = reply
      /\ Json.loads (raw_output reply) = Raise (JSONDecodeError "Extra data"))
  /\ Json.loads (raw_output (fenced_json (q "{'a': 'x```y'}")))
     = Ok (PyDict [(u "a", PyStr (u "xy"))]).
Proof.
  split; [|split; [|split]].
  - intros reply. destruct (startswith fence (strip reply)) eqn:E.
    + now apply raw_output_no_fence.
    + now apply raw_output_unfenced.
  - exact raw_output_inner_fence.
  - cbv zeta. split; vm_compute; reflexivity.
  - vm_compute. reflexivity.
Qed.

Lemma fence_removal_all_or_nothing_witness :
  Forall (fun c => c <> backtick) (q "{'a': 'x") /\
  Forall (fun c => c <> backtick) (q "y'}") /\
  raw_output (fenced (q "{'a': 'x" ++ fence ++ q "y'}"))
  = strip (q "{'a': 'x" ++ q "y'}").
Proof.
  assert (Ha : Forall (fun c => c <> backtick) (q "{'a': 'x"))
    by (repeat (constructor; [discriminate|]); constructor).
  assert (Hb : Forall (fun c => c <> backtick) (q "y'}"))
    by (repeat (constructor; [discriminate|]); constructor).
  split; [exact Ha|split; [exact Hb|]].
  exact (proj1 (proj2 fence_removal_all_or_nothing) _ _ Ha Hb).
Defined.

(** C3, as the code has it: normalisation is idempotent, and for a body in
    which the fence does not occur the three forms of a reply (fenced with
    the json tag, fenced without it, bare) are normalised to the same
    text, the body stripped, and so are parsed alike. *)
Theorem fence_forms_agree :
  (forall reply, raw_output (raw_output reply) = raw_output reply)
  /\ (forall body,
        occurs fence body = false ->
        raw_output (fenced_json body) = strip body
        /\ raw_output (fenced body) = strip body
        /\ raw_output body = strip body
        /\ Json.loads (raw_output (fenced_json body)) = Json.loads (raw_output body)
        /\ Json.loads (raw_output (fenced body)) = Json.loads (raw_output body)).
Proof.
  split; [exact raw_output_idem|].
  intros body H.
  rewrite (raw_output_fenced_json_form _ H), (raw_output_fenced_form _ H),
    (raw_output_absent _ H).
  repeat split.
Qed.

Lemma fence_forms_agree_witness :
  occurs fence (q "{'a': 1}") = false /\
  Json.loads (raw_output (fenced_json (q "{'a': 1}")))
  = Json.loads (raw_output (q "{'a': 1}")).
Proof.
  split; [reflexivity|].
  exact (proj1 (proj2 (proj2 (proj2
           (proj2 fence_forms_agree (q "{'a': 1}") eq_refl))))).
Defined.

(** C3 as it is stated fails: a JSON object with the fence inside one of
    its strings is parsed to one object when it comes bare and to another
    when it comes between fences. *)
Lemma fence_forms_disagree :
  let body := q "{'a': '```'}" in
  Json.loads (raw_output body) = Ok (PyDict [(u "a", PyStr fence)])
  /\ Json.loads (raw_output (fenced_json body)) = Ok (PyDict [(u "a", PyStr [])])
  /\ Json.loads (raw_output (fenced body)) = Ok (PyDict [(u "a", PyStr [])])
  /\ Json.loads (raw_output (fenced_json body)) <> Json.loads (raw_output body).
Proof.
  cbv zeta. repeat split; try (vm_compute; reflexivity).
  vm_compute. discriminate.
Qed.

(** ** The report *)

Lemma bind_ok {A B} (m : outcome A) (k : A -> outcome B) (b : B) :
  bind m k = Ok b -> exists a, m = Ok a /\ k a = Ok b.
Proof. destruct m as [a|e]; simpl; [eauto|discriminate]. Qed.

Ltac split_binds :=
  repeat match goal with
         | Hb : bind _ _ = Ok _ |- _ =>
             let x := fresh "x" in
             let Hx := fresh "Hx" in
             apply bind_ok in Hb as (x & Hx & Hb)
         end.

Lemma new_paragraph_ok (rl : reportlab) (text : str) (st : style) (p : flowable) :
  new_paragraph rl text st = Ok p ->
  p = Paragraph text st /\ markup_ok rl text = true.
Proof.
  unfold new_paragraph. destruct (markup_ok rl text); [|discriminate].
  intros H. injection H as <-. now split.
Qed.

Lemma new_paragraph_good (rl : reportlab) (text : str) (st : style) :
  markup_ok rl text = true -> new_paragraph rl text st = Ok (Paragraph text st).
Proof. unfold new_paragraph. now intros ->. Qed.

Lemma bullet_lines_ok (py : interpreter) (rl : reportlab) (xs : list value) :
  forall ls, bullet_lines py rl xs = Ok ls -> ls = map (bullet_line py) xs.
Proof.
  induction xs as [|x xs IH]; intros ls H; cbn [bullet_lines] in H.
  - now injection H as <-.
  - split_binds. injection H as <-.
    apply new_paragraph_ok in Hx as [-> _].
    now rewrite (IH _ Hx0).
Qed.

Lemma append_bullets_eq (py : interpreter) (rl : reportlab) (xs : list value) :
  forall story,
    append_bullets py rl story xs
    = (ls <- bullet_lines py rl xs ;; Ok (story ++ ls)).
Proof.
  induction xs as [|x xs IH]; intros story; cbn [append_bullets bullet_lines bind].
  - now rewrite app_nil_r.
  - destruct (new_paragraph rl (bullet ++ py_str py x) (Sample "Normal"));
      cbn [bind]; [|reflexivity].
    rewrite IH. destruct (bullet_lines py rl xs); cbn [bind]; [|reflexivity].
    now rewrite <- app_assoc.
Qed.

Lemma optional_list_eq (py : interpreter) (rl : reportlab)
    (story : list flowable) (heading : str) (source : value) (spacer : bool) :
  optional_list py rl story heading source spacer =
  (b <- list_block py rl heading source spacer ;; Ok (story ++ b)).
Proof.
  unfold optional_list, list_block.
  destruct (truthy py source); cbn [bind]; [|now rewrite app_nil_r].
  destruct (new_paragraph rl heading (Sample "Heading3")); cbn [bind];
    [|reflexivity].
  destruct (py_iter source) as [xs|e]; cbn [bind]; [|reflexivity].
  rewrite append_bullets_eq.
  destruct (bullet_lines py rl xs); cbn [bind]; [|reflexivity].
  destruct spacer; rewrite <- ?app_assoc; cbn [app];
    rewrite ?app_nil_r; reflexivity.
Qed.

Ltac split_outcome :=
  match goal with
  | |- context [bind ?m _] =>
      lazymatch m with
      | context [bind _ _] => fail
      | _ => destruct m; cbn [bind]; try reflexivity
      end
  end.

(** [story_of] builds the story block by block. *)
Lemma story_of_layout (py : interpreter) (rl : reportlab) (a s t : value) :
  story_of py rl a s t = layout py rl a t.
Proof.
  unfold story_of, layout, layout_body, sections_block, sentiment_block.
  repeat first
    [ rewrite optional_list_eq
    | rewrite append_bullets_eq
    | match goal with
      | |- context [if ?b then _ else _] => destruct b; cbn [bind]
      end
    | split_outcome ].
  all: try reflexivity.
  all: cbn [app]; rewrite <- ?app_assoc; cbn [app]; rewrite <- ?app_assoc;
    rewrite ?app_nil_r; reflexivity.
Qed.

(** *** Dictionaries *)

Lemma dict_lookup_setitem_other (k k' : str) (v : value) (d : list (str * value)) :
  k <> k' -> dict_lookup k (dict_setitem k' v d) = dict_lookup k d.
Proof.
  intros Hk. induction d as [|[k0 v0] d IH]; simpl.
  - destruct (str_eqb k' k) eqn:E; [|reflexivity].
    apply str_eqb_eq in E. congruence.
  - destruct (str_eqb k0 k') eqn:E; simpl.
    + apply str_eqb_eq in E. subst k0.
      destruct (str_eqb k' k) eqn:E'; [|reflexivity].
      apply str_eqb_eq in E'. congruence.
    + now rewrite IH.
Qed.

Lemma dict_lookup_delitem_other (k k' : str) (d : list (str * value)) :
  k <> k' -> dict_lookup k (dict_delitem k' d) = dict_lookup k d.
Proof.
  intros Hk. induction d as [|[k0 v0] d IH]; simpl; [reflexivity|].
  destruct (str_eqb k0 k') eqn:E; simpl.
  - apply str_eqb_eq in E. subst k0.
    destruct (str_eqb k' k) eqn:E'; [|exact IH].
    apply str_eqb_eq in E'. congruence.
  - now rewrite IH.
Qed.

Lemma dict_lookup_delitem (k : str) (d : list (str * value)) :
  dict_lookup k (dict_delitem k d) = None.
Proof.
  induction d as [|[k0 v0] d IH]; simpl; [reflexivity|].
  destruct (str_eqb k0 k) eqn:E; simpl; [exact IH|now rewrite E].
Qed.

(** *** Reading a story *)

Lemma lines_under_skip (h : str) (pre rest : list flowable) :
  forallb (not_heading h) pre = true ->
  lines_under h (pre ++ rest) = lines_under h rest.
Proof.
  induction pre as [|f pre IH]; intros H; [reflexivity|].
  simpl in H. apply andb_true_iff in H as [H1 H2].
  destruct f as [t st|w ht]; cbn [app lines_under].
  - unfold not_heading, is_heading in H1. apply negb_true_iff in H1.
    rewrite H1. now apply IH.
  - now apply IH.
Qed.

Lemma lines_under_none (h : str) (story : list flowable) :
  forallb (not_heading h) story = true -> lines_under h story = None.
Proof.
  intros H. rewrite <- (app_nil_r story). now rewrite lines_under_skip.
Qed.

Lemma lines_under_here (h : str) (rest : list flowable) :
  lines_under h (Paragraph h (Sample "Heading3") :: rest) = Some (body_lines rest).
Proof. cbn [lines_under]. now rewrite str_eqb_refl. Qed.

Lemma body_lines_bullets (py : interpreter) (xs : list value) (rest : list flowable) :
  body_lines (map (bullet_line py) xs ++ rest)
  = map (bullet_line py) xs ++ body_lines rest.
Proof. induction xs as [|x xs IH]; [reflexivity|]. simpl. now rewrite IH. Qed.

Lemma not_heading_bullets (py : interpreter) (h : str) (xs : list value) :
  forallb (not_heading h) (map (bullet_line py) xs) = true.
Proof. induction xs as [|x xs IH]; [reflexivity|exact IH]. Qed.

(** A heading is in the story exactly when there are lines under it. *)
Lemma in_heading_iff (h : str) (story : list flowable) :
  In (Paragraph h (Sample "Heading3")) story <-> lines_under h story <> None.
Proof.
  induction story as [|f story IH]; simpl.
  - split; [tauto|congruence].
  - destruct f as [t st|w ht].
    + destruct (is_style "Heading3" st && str_eqb t h) eqn:E.
      * split; [discriminate|]. intros _. left.
        apply andb_true_iff in E as [E1 E2]. apply str_eqb_eq in E2.
        destruct st as [n|]; [|discriminate]. simpl in E1.
        apply String.eqb_eq in E1. now subst.
      * rewrite <- IH. split; [|tauto]. intros [H|H]; [|exact H].
        inversion H; subst. rewrite str_eqb_refl in E. discriminate.
    + rewrite <- IH. split; [|tauto]. intros [H|H]; [discriminate|exact H].
Qed.

(** What a list block contributes. *)
Lemma list_block_inv (py : interpreter) (rl : reportlab) (h : str)
    (source : value) (spacer : bool) (b : list flowable) :
  list_block py rl h source spacer = Ok b ->
  (truthy py source = false /\ b = [])
  \/ (truthy py source = true
      /\ exists xs,
           py_iter source = Ok xs
           /\ b = Paragraph h (Sample "Heading3")
                  :: map (bullet_line py) xs
                  ++ (if spacer then [Spacer 1 12] else [])).
Proof.
  unfold list_block. intros H.
  destruct (truthy py source).
  - right. split; [reflexivity|]. split_binds. injection H as <-.
    apply new_paragraph_ok in Hx as [-> _].
    apply bullet_lines_ok in Hx1 as ->. eauto.
  - left. injection H as <-. now split.
Qed.

Lemma list_block_other (py : interpreter) (rl : reportlab) (h h' : str)
    (source : value) (spacer : bool) (b : list flowable) :
  list_block py rl h' source spacer = Ok b -> str_eqb h' h = false ->
  forallb (not_heading h) b = true.
Proof.
  intros H Hh.
  destruct (list_block_inv _ _ _ _ _ _ H) as [[_ ->]|[_ (xs & _ & ->)]];
    [reflexivity|].
  cbn [forallb]. unfold not_heading at 1.
  cbn [is_heading is_style]. rewrite Hh, andb_false_r. cbn [negb andb].
  rewrite forallb_app, not_heading_bullets.
  now destruct spacer.
Qed.

Lemma sentiment_block_other (py : interpreter) (rl : reportlab) (h : str)
    (v : value) (b : list flowable) :
  sentiment_block py rl v = Ok b ->
  str_eqb (u "<b>Skills Sentiment Analysis:</b>") h = false ->
  forallb (not_heading h) b = true.
Proof.
  unfold sentiment_block. intros H Hh.
  destruct (truthy py v); [|now injection H as <-].
  split_binds. destruct v; try discriminate. cbn [paragraph_of] in Hx0.
  apply new_paragraph_ok in Hx as [Ex _], Hx0 as [Ex0 _].
  replace b with
    [Paragraph (u "<b>Skills Sentiment Analysis:</b>") (Sample "Heading3");
     Paragraph s (Sample "Normal"); Spacer 1 12] by congruence.
  cbn [forallb]. unfold not_heading at 1.
  cbn [is_heading is_style]. rewrite Hh, andb_false_r. reflexivity.
Qed.

Lemma list_block_lines (py : interpreter) (rl : reportlab) (h : str)
    (source : value) (spacer : bool) (pre b post : list flowable) :
  list_block py rl h source spacer = Ok b ->
  forallb (not_heading h) pre = true ->
  forallb (not_heading h) post = true ->
  spacer = true \/ post = [] ->
  lines_under h (pre ++ b ++ post) = block_lines py source.
Proof.
  unfold block_lines. intros H Hpre Hpost Hend.
  rewrite lines_under_skip by exact Hpre.
  destruct (list_block_inv _ _ _ _ _ _ H) as [[-> ->]|[-> (xs & -> & ->)]].
  - now apply lines_under_none.
  - cbn [app]. rewrite lines_under_here.
    rewrite <- app_assoc, body_lines_bullets.
    destruct Hend as [->| ->]; [|destruct spacer]; cbn; now rewrite app_nil_r.
Qed.

Lemma story_of_inv (py : interpreter) (rl : reportlab) (a s t : value)
    (story : list flowable) :
  story_of py rl a s t = Ok story -> laid_out py rl a t story.
Proof.
  rewrite story_of_layout. unfold layout, layout_body, sections_block. intros H.
  split_binds.
  repeat match goal with
         | Hp : new_paragraph _ _ _ = Ok _ |- _ =>
             apply new_paragraph_ok in Hp as [-> _]
         end.
  match goal with
  | Hb : bullet_lines _ _ _ = Ok _ |- _ => apply bullet_lines_ok in Hb as ->
  end.
  repeat match goal with
         | Hb : Ok _ = Ok _ |- _ => injection Hb as <-
         end.
  econstructor; eassumption.
Qed.

Lemma not_heading_head (py : interpreter) (h : str) (score : value) :
  forallb (not_heading h) (head_block py score) = true.
Proof. reflexivity. Qed.

Lemma not_heading_sections (py : interpreter) (h : str) (xs : list value) :
  str_eqb (u "<b>Sections Detected:</b>") h = false ->
  forallb (not_heading h) (sections_lines py xs) = true.
Proof.
  intros Hh. unfold sections_lines, sections_heading.
  cbn [forallb]. unfold not_heading at 1. cbn [is_heading is_style].
  rewrite Hh, andb_false_r. cbn [negb andb].
  now rewrite forallb_app, not_heading_bullets.
Qed.

Ltac solve_not_heading :=
  lazymatch goal with
  | |- forallb _ (_ ++ _) = true =>
      rewrite forallb_app; apply andb_true_iff; split; solve_not_heading
  | |- _ =>
      first
        [ apply not_heading_head
        | apply not_heading_sections; reflexivity
        | eapply list_block_other; [eassumption|reflexivity]
        | eapply sentiment_block_other; [eassumption|reflexivity]
        | apply not_heading_bullets
        | reflexivity ]
  end.

(** Under each of the four headings stand the lines of its own block. *)
Lemma story_lines (py : interpreter) (rl : reportlab) (a t : value)
    (story : list flowable) :
  laid_out py rl a t story ->
  forall v,
    (py_get a (u "missing_sections") (PyList []) = Ok v ->
     lines_under missing_heading story = block_lines py v)
    /\ (py_get a (u "improvement_suggestions") (PyList []) = Ok v ->
        lines_under suggestions_heading story = block_lines py v)
    /\ (py_get t (u "ats_recommendations") (PyList []) = Ok v ->
        lines_under ats_heading story = block_lines py v)
    /\ (py_get t (u "jargon_detected") (PyList []) = Ok v ->
        lines_under jargon_heading story = block_lines py v).
Proof.
  intros [score sections xs missing b1 sentiment b2 suggestions b3
            ats_recs b4 jargon b5
            Hscore Hsections Hxs Hmissing Hb1 Hsentiment Hb2
            Hsuggestions Hb3 Hrecs Hb4 Hjargon Hb5] v.
  repeat split; intros Hv.
  - assert (v = missing) by congruence. subst v.
    rewrite (app_assoc (head_block py score)).
    apply list_block_lines with (rl := rl) (spacer := true);
      [exact Hb1|solve_not_heading|solve_not_heading|now left].
  - assert (v = suggestions) by congruence. subst v.
    replace (head_block py score ++ sections_lines py xs
             ++ b1 ++ b2 ++ b3 ++ b4 ++ b5)
      with ((head_block py score ++ sections_lines py xs ++ b1 ++ b2)
            ++ b3 ++ (b4 ++ b5))
      by (now rewrite <- !app_assoc).
    apply list_block_lines with (rl := rl) (spacer := true);
      [exact Hb3|solve_not_heading|solve_not_heading|now left].
  - assert (v = ats_recs) by congruence. subst v.
    replace (head_block py score ++ sections_lines py xs
             ++ b1 ++ b2 ++ b3 ++ b4 ++ b5)
      with ((head_block py score ++ sections_lines py xs ++ b1 ++ b2 ++ b3)
            ++ b4 ++ b5)
      by (now rewrite <- !app_assoc).
    apply list_block_lines with (rl := rl) (spacer := true);
      [exact Hb4|solve_not_heading|solve_not_heading|now left].
  - assert (v = jargon) by congruence. subst v.
    replace (head_block py score ++ sections_lines py xs
             ++ b1 ++ b2 ++ b3 ++ b4 ++ b5)
      with ((head_block py score ++ sections_lines py xs ++ b1 ++ b2 ++ b3 ++ b4)
            ++ b5 ++ [])
      by (now rewrite <- !app_assoc, app_nil_r).
    apply list_block_lines with (rl := rl) (spacer := false);
      [exact Hb5|solve_not_heading|reflexivity|now right].
Qed.

Lemma renders_list_of_lines (py : interpreter) (story : list flowable)
    (h : str) (xs : list value) :
  lines_under h story = block_lines py (PyList xs) ->
  renders_list py story h xs.
Proof.
  intros H. unfold renders_list. rewrite in_heading_iff, H.
  destruct xs; cbn; split; try reflexivity; split; congruence.
Qed.

Lemma layout_body_ext (py : interpreter) (rl : reportlab) (a a' t t' : value) :
  py_get a (u "sections_detected") (PyList [])
  = py_get a' (u "sections_detected") (PyList []) ->
  py_get a (u "missing_sections") (PyList [])
  = py_get a' (u "missing_sections") (PyList []) ->
  py_get a (u "skills_sentiment_summary") (PyStr [])
  = py_get a' (u "skills_sentiment_summary") (PyStr []) ->
  py_get a (u "improvement_suggestions") (PyList [])
  = py_get a' (u "improvement_suggestions") (PyList []) ->
  py_get t (u "ats_recommendations") (PyList [])
  = py_get t' (u "ats_recommendations") (PyList []) ->
  py_get t (u "jargon_detected") (PyList [])
  = py_get t' (u "jargon_detected") (PyList []) ->
  layout_body py rl a t = layout_body py rl a' t'.
Proof.
  intros H1 H2 H3 H4 H5 H6. unfold layout_body.
  now rewrite H1, H2, H3, H4, H5, H6.
Qed.

Lemma new_buffer_write (data : list Byte.byte) :
  write new_BytesIO data = {| getvalue := data; tell := length data |}.
Proof.
  unfold write, new_BytesIO. cbn [getvalue tell length firstn repeat app Nat.sub Nat.add].
  now rewrite skipn_nil, app_nil_r.
Qed.

(** C5: for each list that is laid out on condition, the heading is in
    the report exactly when the list is not empty, and under it stand the
    bullet lines of the items, one for each, in their order.  With no
    missing section there is no such heading; with the one missing
    section Certifications there is the one bullet line for it. *)
Theorem conditional_list_blocks (py : interpreter) (rl : reportlab)
    (a s t : value) (story : list flowable) :
  story_of py rl a s t = Ok story ->
  (forall xs, py_get a (u "missing_sections") (PyList []) = Ok (PyList xs) ->
              renders_list py story missing_heading xs)
  /\ (forall xs, py_get a (u "improvement_suggestions") (PyList []) = Ok (PyList xs) ->
                 renders_list py story suggestions_heading xs)
  /\ (forall xs, py_get t (u "ats_recommendations") (PyList []) = Ok (PyList xs) ->
                 renders_list py story ats_heading xs)
  /\ (forall xs, py_get t (u "jargon_detected") (PyList []) = Ok (PyList xs) ->
                 renders_list py story jargon_heading xs)
  /\ (py_get a (u "missing_sections") (PyList []) = Ok (PyList []) ->
      ~ In (Paragraph (u "<b>Missing Sections:</b>") (Sample "Heading3")) story)
  /\ (py_get a (u "missing_sections") (PyList [])
      = Ok (PyList [PyStr (u "Certifications")]) ->
      lines_under (u "<b>Missing Sections:</b>") story
      = Some [Paragraph (bullet ++ u "Certifications") (Sample "Normal")]).
Proof.
  intros H. apply story_of_inv in H.
  pose proof (story_lines py rl a t story H) as L.
  split; [|split; [|split; [|split; [|split]]]].
  - intros xs Hxs. apply renders_list_of_lines.
    now apply (proj1 (L (PyList xs))).
  - intros xs Hxs. apply renders_list_of_lines.
    now apply (proj1 (proj2 (L (PyList xs)))).
  - intros xs Hxs. apply renders_list_of_lines.
    now apply (proj1 (proj2 (proj2 (L (PyList xs))))).
  - intros xs Hxs. apply renders_list_of_lines.
    now apply (proj2 (proj2 (proj2 (L (PyList xs))))).
  - intros Hxs Hin. apply in_heading_iff in Hin. apply Hin.
    now apply (proj1 (L (PyList []))).
  - apply (proj1 (L (PyList [PyStr (u "Certifications")]))).
Qed.

Lemma sample_story_built :
  story_of sample_interpreter sample_reportlab sample_analysis empty_record
    sample_ats
  = Ok sample_story.
Proof. vm_compute. reflexivity. Qed.

Lemma conditional_list_blocks_witness :
  story_of sample_interpreter sample_reportlab sample_analysis empty_record
    sample_ats
  = Ok sample_story
  /\ py_get sample_analysis (u "missing_sections") (PyList [])
     = Ok (PyList [PyStr (u "Certifications")])
  /\ lines_under (u "<b>Missing Sections:</b>") sample_story
     = Some [Paragraph (bullet ++ u "Certifications") (Sample "Normal")].
Proof.
  split; [exact sample_story_built|split; [reflexivity|]].
  exact (proj2 (proj2 (proj2 (proj2 (proj2
           (conditional_list_blocks sample_interpreter sample_reportlab
              sample_analysis empty_record sample_ats sample_story
              sample_story_built)))))
           eq_refl).
Defined.

(** ** C2: the report and the structured résumé *)

(** C2, as the code has it: the report is laid out from the quality
    record and the ATS record alone.  The structured résumé is handed to
    the renderer and never read, so two reports that differ only in it are
    the same, bytes and all; the other two records do show in the
    report. *)
Theorem report_ignores_structured_data :
  (forall py rl a s1 s2 t,
     generate_pdf_report py rl a s1 t = generate_pdf_report py rl a s2 t)
  /\ (forall py rl a s1 s2 t, story_of py rl a s1 t = story_of py rl a s2 t)
  /\ story_of sample_interpreter sample_reportlab
       sample_analysis empty_record empty_record
     <> story_of sample_interpreter sample_reportlab
          empty_record empty_record empty_record
  /\ story_of sample_interpreter sample_reportlab
       empty_record empty_record sample_ats
     <> story_of sample_interpreter sample_reportlab
          empty_record empty_record empty_record.
Proof.
  split; [reflexivity|split; [reflexivity|split]]; vm_compute; discriminate.
Qed.

(** C2 as it is stated fails: no input makes the report depend on the
    structured résumé. *)
Lemma report_never_depends_on_structured_data :
  ~ (exists py rl a s1 s2 t,
       generate_pdf_report py rl a s1 t <> generate_pdf_report py rl a s2 t).
Proof.
  intros (py & rl & a & s1 & s2 & t & H). apply H. reflexivity.
Qed.

(** ** C6: the report of three empty records *)

Lemma empty_story_built (py : interpreter) (rl : reportlab) :
  markup_ok rl (u "Resume Analysis Report") = true ->
  markup_ok rl (u "<b>Resume Quality Score: N/A/100</b>") = true ->
  markup_ok rl (u "<b>Sections Detected:</b>") = true ->
  story_of py rl empty_record empty_record empty_record = Ok empty_story.
Proof.
  intros H1 H2 H3. rewrite story_of_layout.
  unfold layout, layout_body, sections_block, empty_record.
  rewrite (new_paragraph_good rl _ _ H1). cbn [bind py_get dict_lookup].
  change (u "<b>Resume Quality Score: " ++ py_str py (PyStr (u "N/A"))
          ++ u "/100</b>")
    with (u "<b>Resume Quality Score: N/A/100</b>").
  rewrite (new_paragraph_good rl _ _ H2), (new_paragraph_good rl _ _ H3).
  reflexivity.
Qed.

(** C6: with three empty records the renderer still returns a buffer,
    given that reportlab takes the three fixed texts of that report for
    good markup and writes at least one byte for it.  The buffer holds
    what reportlab wrote for the story of six flowables that starts with
    the title and has the heading of the detected sections with nothing
    under it; it stands at offset 0 and can be moved to any other.  The
    title and that heading are in every story the renderer builds,
    whatever the records. *)
Theorem empty_records_report (py : interpreter) (rl : reportlab) :
  markup_ok rl (u "Resume Analysis Report") = true ->
  markup_ok rl (u "<b>Resume Quality Score: N/A/100</b>") = true ->
  markup_ok rl (u "<b>Sections Detected:</b>") = true ->
  build rl empty_story <> [] ->
  (exists buffer,
      generate_pdf_report py rl empty_record empty_record empty_record
      = Ok buffer
      /\ getvalue buffer = build rl empty_story
      /\ getvalue buffer <> []
      /\ tell buffer = 0
      /\ forall pos, tell (seek buffer pos) = pos
                     /\ getvalue (seek buffer pos) = getvalue buffer)
  /\ nth_error empty_story 0
     = Some (Paragraph (u "Resume Analysis Report") title_style)
  /\ In (Paragraph (u "<b>Sections Detected:</b>") (Sample "Heading3")) empty_story
  /\ lines_under (u "<b>Sections Detected:</b>") empty_story = Some []
  /\ (forall a s t story,
        story_of py rl a s t = Ok story ->
        nth_error story 0
        = Some (Paragraph (u "Resume Analysis Report") title_style)
        /\ In (Paragraph (u "<b>Sections Detected:</b>") (Sample "Heading3")) story).
Proof.
  intros H1 H2 H3 Hbuild.
  split; [|split; [reflexivity|split; [|split; [reflexivity|]]]].
  - exists {| getvalue := build rl empty_story; tell := 0 |}.
    split; [|split; [reflexivity|split; [exact Hbuild|split; [reflexivity|]]]].
    + unfold generate_pdf_report.
      rewrite (empty_story_built py rl H1 H2 H3).
      cbn [bind]. now rewrite new_buffer_write.
    + intros pos. split; reflexivity.
  - cbn. tauto.
  - intros a s t story H. apply story_of_inv in H.
    destruct H. split; [reflexivity|].
    cbn [head_block app In]. right. right. right. right. left. reflexivity.
Qed.

Lemma empty_records_report_witness :
  markup_ok sample_reportlab (u "Resume Analysis Report") = true
  /\ markup_ok sample_reportlab (u "<b>Resume Quality Score: N/A/100</b>") = true
  /\ markup_ok sample_reportlab (u "<b>Sections Detected:</b>") = true
  /\ build sample_reportlab empty_story <> []
  /\ exists buffer,
       generate_pdf_report sample_interpreter sample_reportlab
         empty_record empty_record empty_record = Ok buffer
       /\ getvalue buffer <> [] /\ tell buffer = 0.
Proof.
  assert (H : build sample_reportlab empty_story <> [])
    by (vm_compute; discriminate).
  split; [reflexivity|split; [reflexivity|split; [reflexivity|split; [exact H|]]]].
  destruct (proj1 (empty_records_report sample_interpreter sample_reportlab
                     eq_refl eq_refl eq_refl H))
    as (buffer & E1 & _ & E3 & E4 & _).
  exists buffer. split; [exact E1|split; [exact E3|exact E4]].
Defined.

(** ** C7 and C9: the score line and the jargon block *)

Lemma str_neq (k k' : str) : str_eqb k k' = false -> k <> k'.
Proof. intros H E. subst. rewrite str_eqb_refl in H. discriminate. Qed.

Lemma py_get_delitem_other (k k' : str) (d : list (str * value)) (default : value) :
  str_eqb k k' = false ->
  py_get (PyDict (dict_delitem k' d)) k default = py_get (PyDict d) k default.
Proof.
  intros H. unfold py_get.
  now rewrite (dict_lookup_delitem_other k k' d (str_neq _ _ H)).
Qed.

Lemma py_get_setitem_other (k k' : str) (v : value) (d : list (str * value))
    (default : value) :
  str_eqb k k' = false ->
  py_get (PyDict (dict_setitem k' v d)) k default = py_get (PyDict d) k default.
Proof.
  intros H. unfold py_get.
  now rewrite (dict_lookup_setitem_other k k' v d (str_neq _ _ H)).
Qed.

Lemma score_line_of_story (py : interpreter) (rl : reportlab) (a s t : value)
    (story : list flowable) :
  story_of py rl a s t = Ok story ->
  exists score,
    py_get a (u "resume_quality_score") (PyStr (u "N/A")) = Ok score
    /\ nth_error story 2 = Some (score_line py score).
Proof.
  intros H. apply story_of_inv in H. destruct H.
  eexists. split; [eassumption|reflexivity].
Qed.

(** A report that can be laid out can still be laid out once the score
    is deleted from the quality record. *)
Lemma score_not_needed (py : interpreter) (rl : reportlab)
    (d : list (str * value)) (s t : value) :
  markup_ok rl (u "<b>Resume Quality Score: N/A/100</b>") = true ->
  is_ok (story_of py rl (PyDict d) s t) = true ->
  is_ok (story_of py rl (PyDict (dict_delitem (u "resume_quality_score") d)) s t)
  = true.
Proof.
  intros Hna. rewrite !story_of_layout. unfold layout.
  destruct (new_paragraph rl (u "Resume Analysis Report") title_style);
    cbn [bind]; [|discriminate].
  assert (E : py_get (PyDict (dict_delitem (u "resume_quality_score") d))
                (u "resume_quality_score") (PyStr (u "N/A"))
              = Ok (PyStr (u "N/A")))
    by (unfold py_get; now rewrite dict_lookup_delitem).
  rewrite E. cbn [bind].
  rewrite (layout_body_ext py rl
             (PyDict (dict_delitem (u "resume_quality_score") d)) (PyDict d) t t)
    by first [apply py_get_delitem_other; reflexivity | reflexivity].
  intros H.
  assert (Hbody : exists body, layout_body py rl (PyDict d) t = Ok body).
  { destruct (py_get (PyDict d) (u "resume_quality_score") (PyStr (u "N/A")));
      cbn [bind] in H; [|discriminate].
    destruct (new_paragraph rl _ (Sample "Heading2")); cbn [bind] in H;
      [|discriminate].
    destruct (layout_body py rl (PyDict d) t) as [body|e];
      [now exists body|discriminate]. }
  destruct Hbody as [body ->].
  change (u "<b>Resume Quality Score: " ++ py_str py (PyStr (u "N/A"))
          ++ u "/100</b>")
    with (u "<b>Resume Quality Score: N/A/100</b>").
  now rewrite (new_paragraph_good rl _ _ Hna).
Qed.

(** C7: the third flowable of every report is the score line, the text
    Resume Quality Score: X/100 in bold, where X is [str()] of the value
    the record has under [resume_quality_score], and N/A when the record
    has no such key; and the renderer does not fail for want of the
    score: a report that can be laid out with the score can be laid out
    without it (reportlab taking the N/A line for good markup). *)
Theorem quality_score_line (py : interpreter) (rl : reportlab) :
  (forall a s t story,
     story_of py rl a s t = Ok story ->
     exists score,
       py_get a (u "resume_quality_score") (PyStr (u "N/A")) = Ok score
       /\ nth_error story 2
          = Some (Paragraph (u "<b>Resume Quality Score: " ++ py_str py score
                               ++ u "/100</b>") (Sample "Heading2")))
  /\ (forall d s t story,
        dict_lookup (u "resume_quality_score") d = None ->
        story_of py rl (PyDict d) s t = Ok story ->
        nth_error story 2
        = Some (Paragraph (u "<b>Resume Quality Score: N/A/100</b>")
                  (Sample "Heading2")))
  /\ (forall d s t,
        markup_ok rl (u "<b>Resume Quality Score: N/A/100</b>") = true ->
        is_ok (generate_pdf_report py rl (PyDict d) s t) = true ->
        is_ok (generate_pdf_report py rl
                 (PyDict (dict_delitem (u "resume_quality_score") d)) s t)
        = true).
Proof.
  split; [exact (score_line_of_story py rl)|split].
  - intros d s t story Hnone H.
    destruct (score_line_of_story py rl _ _ _ _ H) as (score & Hscore & Hline).
    unfold py_get in Hscore. rewrite Hnone in Hscore.
    injection Hscore as <-. exact Hline.
  - intros d s t Hna. unfold generate_pdf_report.
    pose proof (score_not_needed py rl d s t Hna) as Hok.
    destruct (story_of py rl (PyDict d) s t); cbn [bind is_ok] in *;
      [|discriminate].
    intros _. specialize (Hok eq_refl).
    destruct (story_of py rl
                (PyDict (dict_delitem (u "resume_quality_score") d)) s t);
      [reflexivity|discriminate].
Qed.

Lemma quality_score_line_witness :
  story_of sample_interpreter sample_reportlab sample_analysis empty_record
    sample_ats
  = Ok sample_story
  /\ exists score,
       py_get sample_analysis (u "resume_quality_score") (PyStr (u "N/A"))
       = Ok score
       /\ nth_error sample_story 2
          = Some (Paragraph (u "<b>Resume Quality Score: "
                               ++ py_str sample_interpreter score
                               ++ u "/100</b>") (Sample "Heading2")).
Proof.
  split; [exact sample_story_built|].
  exact (proj1 (quality_score_line sample_interpreter sample_reportlab)
           sample_analysis empty_record sample_ats sample_story
           sample_story_built).
Defined.

(** C9: the jargon block is laid out from [jargon_detected] alone.
    Setting or deleting [filler_phrases] in the ATS record leaves the
    report as it is; under the heading of the block stand the bullet
    lines of the items of [jargon_detected], and the heading is there only
    when that value is true (for a list: not empty). *)
Theorem jargon_block_source (py : interpreter) (rl : reportlab) :
  (forall a s d v,
     story_of py rl a s (PyDict (dict_setitem (u "filler_phrases") v d))
     = story_of py rl a s (PyDict d))
  /\ (forall a s d,
        story_of py rl a s (PyDict (dict_delitem (u "filler_phrases") d))
        = story_of py rl a s (PyDict d))
  /\ (forall a s t story jargon,
        story_of py rl a s t = Ok story ->
        py_get t (u "jargon_detected") (PyList []) = Ok jargon ->
        lines_under jargon_heading story = block_lines py jargon
        /\ (truthy py jargon = false ->
            ~ In (Paragraph jargon_heading (Sample "Heading3")) story))
  /\ (forall a s t story xs,
        story_of py rl a s t = Ok story ->
        py_get t (u "jargon_detected") (PyList []) = Ok (PyList xs) ->
        renders_list py story jargon_heading xs).
Proof.
  assert (Hext : forall a s t t',
             py_get t (u "ats_recommendations") (PyList [])
             = py_get t' (u "ats_recommendations") (PyList []) ->
             py_get t (u "jargon_detected") (PyList [])
             = py_get t' (u "jargon_detected") (PyList []) ->
             story_of py rl a s t = story_of py rl a s t').
  { intros a s t t' H1 H2. rewrite !story_of_layout. unfold layout.
    now rewrite (layout_body_ext py rl a a t t'
                   eq_refl eq_refl eq_refl eq_refl H1 H2). }
  split; [|split; [|split]].
  - intros a s d v. apply Hext; apply py_get_setitem_other; reflexivity.
  - intros a s d. apply Hext; apply py_get_delitem_other; reflexivity.
  - intros a s t story jargon H Hj. apply story_of_inv in H.
    pose proof (proj2 (proj2 (proj2 (story_lines py rl a t story H jargon))) Hj)
      as L.
    split; [exact L|].
    intros Hfalse Hin. apply in_heading_iff in Hin. apply Hin.
    rewrite L. unfold block_lines. now rewrite Hfalse.
  - intros a s t story xs H Hj. apply story_of_inv in H.
    apply renders_list_of_lines.
    exact (proj2 (proj2 (proj2 (story_lines py rl a t story H (PyList xs)))) Hj).
Qed.

Lemma jargon_block_source_witness :
  story_of sample_interpreter sample_reportlab sample_analysis empty_record
    sample_ats
  = Ok sample_story
  /\ py_get sample_ats (u "jargon_detected") (PyList [])
     = Ok (PyList [PyStr (u "synergy")])
  /\ py_get sample_ats (u "filler_phrases") (PyList [])
     = Ok (PyList [PyStr (u "team player")])
  /\ lines_under jargon_heading sample_story
     = Some [Paragraph (bullet ++ u "synergy") (Sample "Normal")].
Proof.
  split; [exact sample_story_built|split; [reflexivity|split; [reflexivity|]]].
  exact (proj1 (proj1 (proj2 (proj2
                  (jargon_block_source sample_interpreter sample_reportlab)))
                  sample_analysis empty_record sample_ats sample_story
                  (PyList [PyStr (u "synergy")]) sample_story_built eq_refl)).
Defined.

(** ** C8: extraction *)

Lemma join_newlines (texts : list str) :
  join [10%N] texts = concatenated_with_newlines texts.
Proof.
  destruct texts as [|p rest]; [reflexivity|].
  revert p. induction rest as [|r rest IH]; intros p.
  - cbn. now rewrite app_nil_r.
  - change (join [10%N] (p :: r :: rest))
      with (p ++ [10%N] ++ join [10%N] (r :: rest)).
    rewrite IH. reflexivity.
Qed.

Module Utf8Facts.
Import Utf8.

(* Quotients and remainders by constants, for [lia]. *)
Ltac Zify.zify_post_hook ::= Z.to_euclidean_division_equations.

Lemma to_N_byte_of (n : N) : (n < 256)%N -> Byte.to_N (byte_of n) = n.
Proof.
  intros H. unfold byte_of. destruct (Byte.of_N n) eqn:E.
  - now apply Byte.to_of_N.
  - apply Byte.of_N_None_iff in E. lia.
Qed.

Lemma to_N_bytes (l : list N) :
  Forall (fun n => (n < 256)%N) l -> map Byte.to_N (map byte_of l) = l.
Proof.
  induction 1 as [|n l Hn _ IH]; [reflexivity|].
  cbn [map]. now rewrite to_N_byte_of, IH.
Qed.

Lemma scalar_range (c : char) :
  scalar c = true ->
  (c < 55296 \/ 57343 < c < 1114112)%N.
Proof.
  unfold scalar. intros H. apply orb_true_iff in H as [H|H].
  - left. now apply N.ltb_lt.
  - right. apply andb_true_iff in H as [H1 H2].
    split; now apply N.ltb_lt.
Qed.

Lemma encode_char_bytes (c : char) :
  scalar c = true -> Forall (fun n => (n < 256)%N) (encode_char c).
Proof.
  intros H. apply scalar_range in H. unfold encode_char.
  destruct (c <? 128)%N eqn:E1; [apply N.ltb_lt in E1|apply N.ltb_ge in E1];
    [|destruct (c <? 2048)%N eqn:E2;
      [apply N.ltb_lt in E2|apply N.ltb_ge in E2];
      [|destruct (c <? 65536)%N eqn:E3;
        [apply N.ltb_lt in E3|apply N.ltb_ge in E3]]];
    repeat (apply Forall_cons; [lia|]); apply Forall_nil.
Qed.

Ltac holds := 
  unfold within, cont;
  repeat (apply andb_true_iff; split);
  first [apply N.leb_le; lia | apply N.ltb_lt; lia].

Ltac fails := first [apply N.ltb_ge; lia | apply N.eqb_neq; lia].

Lemma decode_encode_char (c : char) (rest : list N) :
  scalar c = true ->
  decode_N (encode_char c ++ rest) = option_map (cons c) (decode_N rest).
Proof.
  intros H. apply scalar_range in H. unfold encode_char.
  destruct (c <? 128)%N eqn:E1.
  { cbn [app decode_N]. now rewrite E1. }
  apply N.ltb_ge in E1.
  destruct (c <? 2048)%N eqn:E2; [apply N.ltb_lt in E2|apply N.ltb_ge in E2].
  { cbn [app decode_N].
    replace (192 + c / 64 <? 128)%N with false by (symmetry; fails).
    replace (within 194 223 (192 + c / 64)) with true by (symmetry; holds).
    replace (cont (128 + c mod 64)) with true by (symmetry; holds).
    replace ((192 + c / 64 - 192) * 64 + (128 + c mod 64 - 128))%N with c by lia.
    reflexivity. }
  destruct (c <? 65536)%N eqn:E3; [apply N.ltb_lt in E3|apply N.ltb_ge in E3].
  { cbn [app decode_N].
    replace (224 + c / 4096 <? 128)%N with false by (symmetry; fails).
    replace (within 194 223 (224 + c / 4096)) with false
      by (symmetry; unfold within; apply andb_false_iff; right; apply N.leb_gt; lia).
    replace (within 224 239 (224 + c / 4096)) with true by (symmetry; holds).
    replace (cont (128 + c mod 64)) with true by (symmetry; holds).
    replace (within (if (224 + c / 4096 =? 224)%N then 160 else 128)
               (if (224 + c / 4096 =? 237)%N then 159 else 191)
               (128 + (c / 64) mod 64)) with true.
    2:{ symmetry.
        destruct (224 + c / 4096 =? 224)%N eqn:Ea;
          [apply N.eqb_eq in Ea|apply N.eqb_neq in Ea];
          (destruct (224 + c / 4096 =? 237)%N eqn:Eb;
           [apply N.eqb_eq in Eb|apply N.eqb_neq in Eb]); holds. }
    cbn [andb].
    replace ((224 + c / 4096 - 224) * 4096 + (128 + (c / 64) mod 64 - 128) * 64
             + (128 + c mod 64 - 128))%N with c by lia.
    reflexivity. }
  cbn [app decode_N].
  replace (240 + c / 262144 <? 128)%N with false by (symmetry; fails).
  replace (within 194 223 (240 + c / 262144)) with false
    by (symmetry; unfold within; apply andb_false_iff; right; apply N.leb_gt; lia).
  replace (within 224 239 (240 + c / 262144)) with false
    by (symmetry; unfold within; apply andb_false_iff; right; apply N.leb_gt; lia).
  replace (within 240 244 (240 + c / 262144)) with true by (symmetry; holds).
  replace (cont (128 + c mod 64)) with true by (symmetry; holds).
  replace (cont (128 + (c / 64) mod 64)) with true by (symmetry; holds).
  replace (within (if (240 + c / 262144 =? 240)%N then 144 else 128)
             (if (240 + c / 262144 =? 244)%N then 143 else 191)
             (128 + (c / 4096) mod 64)) with true.
  2:{ symmetry.
      destruct (240 + c / 262144 =? 240)%N eqn:Ea;
        [apply N.eqb_eq in Ea|apply N.eqb_neq in Ea];
        (destruct (240 + c / 262144 =? 244)%N eqn:Eb;
         [apply N.eqb_eq in Eb|apply N.eqb_neq in Eb]); holds. }
  cbn [andb].
  replace ((240 + c / 262144 - 240) * 262144 + (128 + (c / 4096) mod 64 - 128) * 4096
           + (128 + (c / 64) mod 64 - 128) * 64 + (128 + c mod 64 - 128))%N
    with c by lia.
  reflexivity.
Qed.

(** Decoding what was encoded gives the text back. *)
Lemma decode_encode (text : str) :
  forallb scalar text = true -> decode (encode text) = Ok text.
Proof.
  intros H. unfold decode, encode.
  rewrite to_N_bytes.
  - replace (decode_N (flat_map encode_char text)) with (Some text); [reflexivity|].
    symmetry. induction text as [|c text IH]; [reflexivity|].
    cbn [forallb] in H. apply andb_true_iff in H as [Hc H].
    cbn [flat_map]. rewrite (decode_encode_char c _ Hc), (IH H). reflexivity.
  - induction text as [|c text IH]; [constructor|].
    cbn [forallb] in H. apply andb_true_iff in H as [Hc H].
    cbn [flat_map]. apply Forall_app. split; [now apply encode_char_bytes|now apply IH].
Qed.

End Utf8Facts.

(** C8: a PDF gives the texts of its pages, in page order, with a line
    feed between one and the next; a DOCX document gives the texts of its
    paragraphs in the same way; a text file gives its bytes decoded as
    UTF-8, so that a file holding the UTF-8 encoding of a text gives that
    text back. *)
Theorem extraction_concatenates
    (fitz_open Document : list Byte.byte -> outcome (list str)) :
  (forall pdf_file pages,
     fitz_open (read pdf_file) = Ok pages ->
     extract_text_from_pdf fitz_open pdf_file
     = Ok (concatenated_with_newlines pages))
  /\ (forall docx_file paragraphs,
        Document (read docx_file) = Ok paragraphs ->
        extract_text_from_docx Document docx_file
        = Ok (concatenated_with_newlines paragraphs))
  /\ (forall txt_file,
        extract_text_from_txt txt_file = Utf8.decode (read txt_file))
  /\ (forall file_name text,
        forallb Utf8.scalar text = true ->
        extract_text_from_txt {| name := file_name; read := Utf8.encode text |}
        = Ok text).
Proof.
  split; [|split; [|split]].
  - intros f pages H. unfold extract_text_from_pdf. rewrite H. cbn [bind].
    now rewrite join_newlines.
  - intros f paragraphs H. unfold extract_text_from_docx. rewrite H. cbn [bind].
    now rewrite join_newlines.
  - reflexivity.
  - intros file_name text H. unfold extract_text_from_txt. cbn [read].
    now apply Utf8Facts.decode_encode.
Qed.

Lemma extraction_concatenates_witness :
  sample_parser (read sample_pdf) = Ok [u "Skills"; u "Python"]
  /\ extract_text_from_pdf sample_parser sample_pdf
     = Ok (u "Skills" ++ [10%N] ++ u "Python")
  /\ forallb Utf8.scalar sample_text = true
  /\ extract_text_from_txt sample_txt = Ok sample_text.
Proof.
  assert (H1 : sample_parser (read sample_pdf) = Ok [u "Skills"; u "Python"])
    by (vm_compute; reflexivity).
  assert (H2 : forallb Utf8.scalar sample_text = true) by reflexivity.
  split; [exact H1|split; [|split; [exact H2|]]].
  - exact (proj1 (extraction_concatenates sample_parser sample_parser)
             sample_pdf _ H1).
  - exact (proj2 (proj2 (proj2 (extraction_concatenates sample_parser sample_parser)))
             (u "cv.txt") sample_text H2).
Defined.

(** ** C4: a blank text stops the run *)

Lemma model_calls_app (a b : list event) :
  model_calls (a ++ b) = model_calls a ++ model_calls b.
Proof. apply flat_map_app. Qed.

Section ScriptFacts.

Variable py : interpreter.
Variable rl : reportlab.
Variables fitz_open Document : list Byte.byte -> outcome (list str).
Variable model : client.

Lemma tab1_no_calls (raw : str) : model_calls (fst (tab1 raw)) = [].
Proof. unfold tab1. now destruct (tab1_try raw). Qed.

Lemma tab2_no_calls (raw : str) : model_calls (fst (tab2 raw)) = [].
Proof. unfold tab2. now destruct (Json.loads (raw_output raw)). Qed.

Lemma tab3_no_calls (raw : str) : model_calls (fst (tab3 py raw)) = [].
Proof. unfold tab3. now destruct (tab3_try py raw). Qed.

Lemma tab4_no_calls (a s t : value) : model_calls (tab4 py rl a s t) = [].
Proof. unfold tab4. now destruct (generate_pdf_report py rl a s t). Qed.

(** C4: when the text extracted from the uploaded file is empty or made
    of whitespace only, the run shows the extraction error and stops: it
    calls the model not once and lays out no report.  (With any other
    text it calls the model three times, once for each analysis.) *)
Theorem blank_text_stops_the_run (uploaded_file : UploadedFile)
    (resume_text : str) :
  extract_text fitz_open Document uploaded_file = Ok resume_text ->
  (Forall (fun c => isspace c = true) resume_text ->
   script py rl fitz_open Document model uploaded_file
   = [st_error (u "Could not extract text from resume."); st_stop]
   /\ model_calls (script py rl fitz_open Document model uploaded_file) = [])
  /\ (~ Forall (fun c => isspace c = true) resume_text ->
      model_calls (script py rl fitz_open Document model uploaded_file)
      = [analyze_prompt resume_text; structured_prompt resume_text;
         ats_prompt resume_text]).
Proof.
  intros Hx. unfold script. rewrite Hx. split.
  - intros Hblank. apply strip_blank in Hblank. rewrite Hblank.
    split; reflexivity.
  - intros Hnot. destruct (strip resume_text) as [|c r] eqn:E.
    + exfalso. apply Hnot. now apply strip_blank.
    + pose proof (tab1_no_calls (analyze_resume model resume_text)) as H1.
      pose proof (tab2_no_calls (parse_structured_resume model resume_text)) as H2.
      pose proof (tab3_no_calls (detect_jargon_and_ats_issues model resume_text)) as H3.
      destruct (tab1 (analyze_resume model resume_text)) as [out1 a].
      destruct (tab2 (parse_structured_resume model resume_text)) as [out2 s].
      destruct (tab3 py (detect_jargon_and_ats_issues model resume_text)) as [out3 t].
      cbn [fst] in *.
      rewrite !model_calls_app, H1, H2, H3, tab4_no_calls. reflexivity.
Qed.

End ScriptFacts.

Lemma blank_text_stops_the_run_witness :
  extract_text sample_parser sample_parser blank_txt = Ok [32%N; 10%N; 9%N]
  /\ Forall (fun c => isspace c = true) [32%N; 10%N; 9%N]
  /\ script sample_interpreter sample_reportlab sample_parser sample_parser
       (answering (q "{}")) blank_txt
     = [st_error (u "Could not extract text from resume."); st_stop].
Proof.
  assert (H1 : extract_text sample_parser sample_parser blank_txt
               = Ok [32%N; 10%N; 9%N]) by (vm_compute; reflexivity).
  assert (H2 : Forall (fun c => isspace c = true) [32%N; 10%N; 9%N])
    by (repeat constructor).
  split; [exact H1|split; [exact H2|]].
  exact (proj1 (proj1 (blank_text_stops_the_run sample_interpreter sample_reportlab
                         sample_parser sample_parser (answering (q "{}"))
                         blank_txt _ H1) H2)).
Defined.

(** ** C1: the replies of a failed call *)

#[local] Arguments N.eqb : simpl nomatch.

Lemma plain_char_spec (c : char) :
  plain_char c = true ->
  (c =? 34)%N = false /\ (c =? 92)%N = false /\ (c <? 32)%N = false.
Proof.
  unfold plain_char. intros H.
  apply andb_true_iff in H as [H H3]. apply andb_true_iff in H as [H1 H2].
  apply negb_true_iff in H1, H2. apply N.leb_le in H3.
  repeat split; try assumption. apply N.ltb_ge. exact H3.
Qed.

(** A plain text is scanned as it stands, up to the closing quote. *)
Lemma scanstring_plain (s rest : str) :
  plain_text s = true ->
  Json.scanstring (s ++ 34%N :: rest) = Json.Parsed s rest.
Proof.
  induction s as [|c s IH]; intros H; [reflexivity|].
  cbn [plain_text forallb] in H. apply andb_true_iff in H as [Hc H].
  destruct (plain_char_spec c Hc) as (H1 & H2 & H3).
  cbn [app Json.scanstring]. rewrite H1, H2, H3.
  fold (plain_text s) in H. now rewrite (IH H).
Qed.

(** The text of an object with the one key [error] and a plain message
    is parsed to that object. *)
Lemma loads_error_object (msg : str) :
  plain_text msg = true ->
  Json.loads (q "{'error': '" ++ msg ++ q "'}")
  = Ok (PyDict [(u "error", PyStr msg)]).
Proof.
  intros H. unfold Json.loads.
  remember (Json.fuel_for (q "{'error': '" ++ msg ++ q "'}")) as fuel eqn:Ef.
  assert (Hf : 3 <= fuel).
  { subst fuel. unfold Json.fuel_for. rewrite length_app. cbn [length q]. lia. }
  destruct fuel as [|[|[|fuel]]]; try lia.
  cbn.
  match goal with
  | |- context [Json.scanstring ?x] =>
      replace (Json.scanstring x) with (Json.Parsed msg [125%N])
        by (symmetry; exact (scanstring_plain msg [125%N] H))
  end.
  reflexivity.
Qed.

Lemma raw_output_error_text (msg : str) :
  raw_output (q "{'error': '" ++ msg ++ q "'}") = q "{'error': '" ++ msg ++ q "'}".
Proof.
  assert (Hs : strip (q "{'error': '" ++ msg ++ q "'}")
               = q "{'error': '" ++ msg ++ q "'}").
  { assert (E : q "{'error': '" ++ msg ++ q "'}"
                 = 123%N :: (q "'error': '" ++ msg ++ [dq]) ++ [125%N]).
    { change (q "{'error': '") with (123%N :: q "'error': '").
      cbn [app]. rewrite <- !app_assoc. reflexivity. }
    rewrite E. apply strip_keep; reflexivity. }
  unfold raw_output. cbv zeta. rewrite Hs. reflexivity.
Qed.

(** When the message of the exception is plain, the reply of a failed
    call is parsed to the object with the one key [error]. *)
Lemma failed_call_reply_parses (model : client) (resume_text e : str) :
  plain_text e = true ->
  (model (analyze_prompt resume_text) = Error e ->
   Json.loads (raw_output (analyze_resume model resume_text))
   = Ok (PyDict [(u "error", PyStr (u "Failed to analyze resume: " ++ e))]))
  /\ (model (structured_prompt resume_text) = Error e ->
      Json.loads (raw_output (parse_structured_resume model resume_text))
      = Ok (PyDict [(u "error", PyStr (u "Failed to parse resume: " ++ e))]))
  /\ (model (ats_prompt resume_text) = Error e ->
      Json.loads (raw_output (detect_jargon_and_ats_issues model resume_text))
      = Ok (PyDict [(u "error", PyStr (u "Failed to analyze jargon/ATS: " ++ e))])).
Proof.
  intros He.
  assert (Hp : forall prefix,
             plain_text prefix = true -> plain_text (prefix ++ e) = true).
  { intros prefix Hprefix. unfold plain_text in *.
    now rewrite forallb_app, Hprefix, He. }
  repeat split; intros Hm.
  - unfold analyze_resume. rewrite Hm.
    change (q "{'error': 'Failed to analyze resume: " ++ e ++ q "'}")
      with (q "{'error': '" ++ (u "Failed to analyze resume: " ++ e) ++ q "'}").
    rewrite raw_output_error_text. apply loads_error_object, Hp. reflexivity.
  - unfold parse_structured_resume. rewrite Hm.
    change (q "{'error': 'Failed to parse resume: " ++ e ++ q "'}")
      with (q "{'error': '" ++ (u "Failed to parse resume: " ++ e) ++ q "'}").
    rewrite raw_output_error_text. apply loads_error_object, Hp. reflexivity.
  - unfold detect_jargon_and_ats_issues. rewrite Hm.
    change (q "{'error': 'Failed to analyze jargon/ATS: " ++ e ++ q "'}")
      with (q "{'error': '" ++ (u "Failed to analyze jargon/ATS: " ++ e) ++ q "'}").
    rewrite raw_output_error_text. apply loads_error_object, Hp. reflexivity.
Qed.

(** C1 fails on the code: the wrappers put the message of the exception
    between the quotes as it is.  With a double quote, a line feed or a
    backslash in the message the reply is no JSON text, [json.loads]
    raises, and the caller falls back to the empty record. *)
Lemma failed_call_reply_is_not_json :
  analyze_resume (failing (q "API key 'abc' not valid")) sample_text
  = q "{'error': 'Failed to analyze resume: API key 'abc' not valid'}"
  /\ Json.loads (raw_output
       (analyze_resume (failing (q "API key 'abc' not valid")) sample_text))
     = Raise (JSONDecodeError "Expecting ',' delimiter")
  /\ Json.loads (raw_output
       (parse_structured_resume
          (failing (u "429 quota" ++ [10%N] ++ u "retry later")) sample_text))
     = Raise (JSONDecodeError "Invalid control character at")
  /\ Json.loads (raw_output
       (detect_jargon_and_ats_issues (failing (u "no file C:\data")) sample_text))
     = Raise (JSONDecodeError "Invalid \escape")
  /\ snd (tab1 (analyze_resume (failing (q "API key 'abc' not valid")) sample_text))
     = PyDict [].
Proof. repeat split; vm_compute; reflexivity. Qed.

Lemma failed_call_reply_parses_witness :
  plain_text (u "quota exceeded") = true
  /\ Json.loads (raw_output (analyze_resume (failing (u "quota exceeded")) sample_text))
     = Ok (PyDict [(u "error",
                    PyStr (u "Failed to analyze resume: quota exceeded"))]).
Proof.
  split; [reflexivity|].
  exact (proj1 (failed_call_reply_parses (failing (u "quota exceeded"))
                  sample_text (u "quota exceeded") eq_refl) eq_refl).
Defined.

(** ** Replies that cannot be parsed *)



(** ** The fuel of [json.loads] is enough *)

Module JsonFacts.
Import Json.

Lemma skip_ws_length (s : str) : length (skip_ws s) <= length s.
Proof.
  induction s as [|c s IH]; [reflexivity|].
  cbn [skip_ws]. destruct (is_ws c); cbn [length]; lia.
Qed.

Lemma push_parsed (c : char) (p : parse str) (k r : str) :
  push c p = Parsed k r -> exists k', p = Parsed k' r.
Proof. destruct p; cbn; intros H; inversion H; eauto. Qed.

(** A scanned string ends after its closing quote. *)
Lemma scanstring_length (s : str) :
  forall k r, scanstring s = Parsed k r -> length r < length s.
Proof.
  assert (H : forall n s, length s <= n ->
              forall k r, scanstring s = Parsed k r -> length r < length s).
  { clear s. induction n as [|n IH]; intros s Hn k r H.
    - destruct s; [discriminate|cbn in Hn; lia].
    - destruct s as [|c s]; [discriminate|]. cbn [length] in Hn.
      cbn [scanstring] in H.
      repeat match type of H with
             | context [if ?b then _ else _] => destruct b
             | context [match ?x with _ => _ end] => destruct x eqn:?
             end;
        try discriminate;
        try (inversion H; subst; cbn [length]; lia);
        apply push_parsed in H as [k' H];
        apply IH in H; cbn [length] in *; lia. }
  intros k r. apply (H (length s)). lia.
Qed.

Lemma span_digits_length (s : str) :
  forall d r, span_digits s = (d, r) -> length r <= length s.
Proof.
  induction s as [|c s IH]; intros d r H; cbn [span_digits] in H.
  - inversion H. reflexivity.
  - destruct (is_digit c).
    + destruct (span_digits s) as [d' r'] eqn:E. inversion H; subst.
      specialize (IH _ _ eq_refl). cbn [length]. lia.
    + inversion H; subst. reflexivity.
Qed.

Lemma match_integer_length (s d r : str) :
  match_integer s = Some (d, r) -> length r < length s.
Proof.
  unfold match_integer. intros H.
  destruct s as [|c s]; [discriminate|].
  destruct (c =? 45)%N.
  - destruct s as [|c' s]; [discriminate|].
    destruct (c' =? 48)%N; [inversion H; subst; cbn [length]; lia|].
    destruct (is_digit c'); [|discriminate].
    destruct (span_digits s) as [d' r'] eqn:E. inversion H; subst.
    apply span_digits_length in E. cbn [length]. lia.
  - destruct (c =? 48)%N; [inversion H; subst; cbn [length]; lia|].
    destruct (is_digit c); [|discriminate].
    destruct (span_digits s) as [d' r'] eqn:E. inversion H; subst.
    apply span_digits_length in E. cbn [length]. lia.
Qed.

Lemma match_frac_length (s d r : str) :
  match_frac s = Some (d, r) -> length r <= length s.
Proof.
  unfold match_frac. intros H.
  destruct s as [|dot [|c s]]; try discriminate.
  destruct ((dot =? 46)%N && is_digit c); [|discriminate].
  destruct (span_digits s) as [d' r'] eqn:E. inversion H; subst.
  apply span_digits_length in E. cbn [length]. lia.
Qed.

Lemma match_exp_length (s d r : str) :
  match_exp s = Some (d, r) -> length r <= length s.
Proof.
  unfold match_exp. intros H.
  destruct s as [|e s]; [discriminate|].
  destruct ((e =? 101)%N || (e =? 69)%N); [|discriminate].
  destruct s as [|c s'].
  - destruct (span_digits []) as [[|x d'] r'] eqn:E; [discriminate|].
    cbn in E. discriminate.
  - destruct ((c =? 45)%N || (c =? 43)%N).
    + destruct (span_digits s') as [[|x d'] r'] eqn:E; [discriminate|].
      inversion H; subst. apply span_digits_length in E. cbn [length]. lia.
    + destruct (span_digits (c :: s')) as [[|x d'] r'] eqn:E; [discriminate|].
      inversion H; subst. apply span_digits_length in E. cbn [length] in *. lia.
Qed.

Lemma match_number_length (s : str) (v : value) (r : str) :
  match_number s = Some (v, r) -> length r < length s.
Proof.
  unfold match_number. intros H.
  destruct (match_integer s) as [[int r0]|] eqn:E0; [|discriminate].
  apply match_integer_length in E0.
  destruct (match_frac r0) as [[f r1]|] eqn:E1.
  - apply match_frac_length in E1.
    destruct (match_exp r1) as [[e r2]|] eqn:E2.
    + apply match_exp_length in E2.
      destruct f, e, int; try destruct (_ =? 45)%N; inversion H; subst; lia.
    + destruct f, int; try destruct (_ =? 45)%N; inversion H; subst; lia.
  - destruct (match_exp r0) as [[e r2]|] eqn:E2.
    + apply match_exp_length in E2.
      destruct e, int; try destruct (_ =? 45)%N; inversion H; subst; lia.
    + destruct int; try destruct (_ =? 45)%N; inversion H; subst; lia.
Qed.

Lemma after_length (lit s r : str) :
  after lit s = Some r -> length s = length lit + length r.
Proof.
  revert s. induction lit as [|x lit IH]; intros s H; cbn [after] in H.
  - inversion H. reflexivity.
  - destruct s as [|y s]; [discriminate|].
    destruct (x =? y)%N; [|discriminate].
    apply IH in H. cbn [length]. lia.
Qed.

Ltac break_match H :=
  repeat match type of H with
         | context [if ?b then _ else _] => destruct b
         | context [match ?x with _ => _ end] => destruct x eqn:?
         end.

Ltac ws_facts :=
  repeat match goal with
         | H : context [skip_ws ?x] |- _ =>
             lazymatch goal with
             | _ : length (skip_ws x) <= length x |- _ => fail
             | _ => pose proof (skip_ws_length x)
             end
         end.

Ltac length_facts :=
  repeat match goal with
         | E : skip_ws _ = _ |- _ => apply (f_equal (@length _)) in E
         | E : scanstring _ = Parsed _ _ |- _ => apply scanstring_length in E
         | E : after _ _ = Some _ |- _ => apply after_length in E
         | E : match_number _ = Some _ |- _ => apply match_number_length in E
         end;
  cbn [length u] in *.

(** What is parsed is shorter than what was there. *)
Lemma parsed_length (fuel : nat) :
  (forall s v r, scan_once fuel s = Parsed v r -> length r < length s)
  /\ (forall s acc v r, parse_items fuel s acc = Parsed v r -> length r < length s)
  /\ (forall s acc v r, parse_members fuel s acc = Parsed v r -> length r < length s).
Proof.
  induction fuel as [|fuel (IH1 & IH2 & IH3)].
  - repeat split; intros; discriminate.
  - split; [|split].
    + intros s v r H. cbn [scan_once] in H.
      break_match H; try discriminate;
        try (inversion H; subst; clear H);
        try (match goal with E : parse_items _ _ _ = Parsed _ _ |- _ => apply IH2 in E end);
        try (match goal with E : parse_members _ _ _ = Parsed _ _ |- _ => apply IH3 in E end);
        ws_facts; length_facts; lia.
    + intros s acc v r H. cbn [parse_items] in H.
      break_match H; try discriminate;
        try (inversion H; subst; clear H);
        try (match goal with E : parse_items _ _ _ = Parsed _ _ |- _ => apply IH2 in E end);
        repeat (match goal with E : scan_once _ _ = Parsed _ _ |- _ => apply IH1 in E end);
        ws_facts; length_facts; lia.
    + intros s acc v r H. cbn [parse_members] in H.
      break_match H; try discriminate;
        try (inversion H; subst; clear H);
        try (match goal with E : parse_members _ _ _ = Parsed _ _ |- _ => apply IH3 in E end);
        repeat (match goal with E : scan_once _ _ = Parsed _ _ |- _ => apply IH1 in E end);
        ws_facts; length_facts; lia.
Qed.

Lemma push_exhausted (c : char) (p : parse str) :
  push c p = Exhausted -> p = Exhausted.
Proof. destruct p; cbn; congruence. Qed.

(** Scanning a string needs no fuel. *)
Lemma scanstring_total (s : str) : scanstring s <> Exhausted.
Proof.
  assert (H : forall n s, length s <= n -> scanstring s <> Exhausted).
  { clear s. induction n as [|n IH]; intros s Hn H.
    - destruct s; [discriminate|cbn in Hn; lia].
    - destruct s as [|c s]; [discriminate|]. cbn [length] in Hn.
      cbn [scanstring] in H.
      break_match H; try discriminate;
        apply push_exhausted in H; revert H; apply IH;
        cbn [length] in *; lia. }
  apply (H (length s)). lia.
Qed.

Ltac break_goal :=
  repeat match goal with
         | |- context [if ?b then _ else _] => destruct b
         | |- context [match ?x with _ => _ end] => destruct x eqn:?
         end.

(** With two units of fuel for every character, and one more, the
    parser does not run out of fuel. *)
Lemma fuel_enough (fuel : nat) :
  (forall s, 2 * length s + 1 <= fuel -> scan_once fuel s <> Exhausted)
  /\ (forall s acc, 2 * length s + 2 <= fuel -> parse_items fuel s acc <> Exhausted)
  /\ (forall s acc, 2 * length s + 2 <= fuel -> parse_members fuel s acc <> Exhausted).
Proof.
  induction fuel as [|fuel (IH1 & IH2 & IH3)].
  - repeat split; intros; lia.
  - pose proof (parsed_length fuel) as (L1 & L2 & L3).
    split; [|split].
    + intros s Hs. cbn [scan_once].
      destruct s as [|c s]; [(cbv beta iota; discriminate)|]. cbn [length] in Hs.
      destruct (c =? 34)%N.
      { pose proof (scanstring_total s).
        destruct (scanstring s); [discriminate|discriminate|congruence]. }
      destruct (c =? 123)%N.
      { pose proof (skip_ws_length s).
        destruct (skip_ws s) as [|c' r'] eqn:E.
        - cbv beta iota; apply IH3. cbn [length]. lia.
        - destruct (c' =? 125)%N; [(cbv beta iota; discriminate)|].
          cbv beta iota; apply IH3. lia. }
      destruct (c =? 91)%N.
      { pose proof (skip_ws_length s).
        destruct (skip_ws s) as [|c' r'] eqn:E.
        - cbv beta iota; apply IH2. cbn [length]. lia.
        - destruct (c' =? 93)%N; [(cbv beta iota; discriminate)|]. cbv beta iota; apply IH2. lia. }
      break_goal; (cbv beta iota; discriminate).
    + intros s acc Hs. cbn [parse_items].
      destruct (scan_once fuel s) as [v rest| |] eqn:E; [|(cbv beta iota; discriminate)|].
      * apply L1 in E.
        pose proof (skip_ws_length rest).
        destruct (skip_ws rest) as [|c r]; [(cbv beta iota; discriminate)|].
        destruct (c =? 93)%N; [(cbv beta iota; discriminate)|].
        destruct (c =? 44)%N; [|(cbv beta iota; discriminate)].
        pose proof (skip_ws_length r).
        cbv beta iota; apply IH2. cbn [length] in *. lia.
      * exfalso. revert E. apply IH1. lia.
    + intros s acc Hs. cbn [parse_members].
      destruct s as [|c s]; [(cbv beta iota; discriminate)|]. cbn [length] in Hs.
      destruct (c =? 34)%N; [|(cbv beta iota; discriminate)].
      pose proof (scanstring_total s).
      destruct (scanstring s) as [key rest| |] eqn:E;
        [|discriminate|congruence].
      apply scanstring_length in E.
      pose proof (skip_ws_length rest).
      destruct (skip_ws rest) as [|c1 r1]; [(cbv beta iota; discriminate)|].
      destruct (c1 =? 58)%N; [|(cbv beta iota; discriminate)].
      pose proof (skip_ws_length r1).
      destruct (scan_once fuel (skip_ws r1)) as [v rest'| |] eqn:E';
        [|(cbv beta iota; discriminate)|].
      * apply L1 in E'.
        pose proof (skip_ws_length rest').
        destruct (skip_ws rest') as [|c2 r2]; [(cbv beta iota; discriminate)|].
        destruct (c2 =? 125)%N; [(cbv beta iota; discriminate)|].
        destruct (c2 =? 44)%N; [|(cbv beta iota; discriminate)].
        pose proof (skip_ws_length r2).
        cbv beta iota; apply IH3. cbn [length] in *. lia.
      * exfalso. revert E'. apply IH1. cbn [length] in *. lia.
Qed.

(** [json.loads] gives a value or a JSONDecodeError: the model never
    runs out of fuel. *)
Theorem loads_decides (s : str) :
  (exists v, loads s = Ok v) \/ (exists msg, loads s = Raise (JSONDecodeError msg)).
Proof.
  unfold loads.
  destruct (startswith [65279%N] s); [right; eauto|].
  destruct (scan_once (fuel_for s) (skip_ws s)) as [v rest|msg|] eqn:E.
  - destruct (skip_ws rest); [left|right]; eauto.
  - right; eauto.
  - exfalso. revert E. apply (proj1 (fuel_enough (fuel_for s))).
    pose proof (skip_ws_length s). unfold fuel_for. lia.
Qed.

End JsonFacts.

(** * More properties of the code *)

(** ** The records the tabs hand on *)

Lemma py_len_iter (v : value) (n : nat) :
  py_len v = Ok n -> exists xs, py_iter v = Ok xs.
Proof. destruct v; cbn; intros H; try discriminate; eauto. Qed.

Lemma py_get_dict (x : value) (k : str) (default v : value) :
  py_get x k default = Ok v -> exists d, x = PyDict d.
Proof. destruct x; cbn; intros H; try discriminate; eauto. Qed.

Lemma py_get_default_iter (d : list (str * value)) (k : str) (v : value) :
  py_get (PyDict d) k (PyList []) = Ok v ->
  (dict_lookup k d = Some v) \/ (dict_lookup k d = None /\ v = PyList []).
Proof.
  unfold py_get. destruct (dict_lookup k d); intros H; injection H as <-;
    [now left|now right].
Qed.

(** The quality record that tab1 hands on is always a dict, and what it
    has under [sections_detected] and [missing_sections] can be iterated:
    a reply that is not an object, or in which one of the two has no
    length, was replaced by the empty dict.  So the two loops of the
    renderer over these values never meet a value they cannot run
    through. *)
Theorem tab1_record_invariant (raw : str) :
  exists d,
    snd (tab1 raw) = PyDict d
    /\ (forall v, py_get (PyDict d) (u "sections_detected") (PyList []) = Ok v ->
                  exists xs, py_iter v = Ok xs)
    /\ (forall v, py_get (PyDict d) (u "missing_sections") (PyList []) = Ok v ->
                  exists xs, py_iter v = Ok xs).
Proof.
  unfold tab1. destruct (tab1_try raw) as [a|e] eqn:E; cbn [snd].
  - unfold tab1_try in E. split_binds. injection E as <-.
    destruct (py_get_dict _ _ _ _ Hx0) as [d ->].
    exists d. split; [reflexivity|]. split; intros v Hv.
    + assert (v = x1) by congruence. subst. eapply py_len_iter; eassumption.
    + assert (v = x3) by congruence. subst. eapply py_len_iter; eassumption.
  - exists []. split; [reflexivity|].
    split; intros v Hv; cbn in Hv; injection Hv as <-; cbn; eauto.
Qed.

Lemma show_list_iter (py : interpreter) (d : list (str * value)) (k : str)
    (v : value) :
  show_list py (PyDict d) k = Ok tt ->
  py_get (PyDict d) k (PyList []) = Ok v -> truthy py v = true ->
  exists xs, py_iter v = Ok xs.
Proof.
  unfold show_list. intros H Hv Ht.
  destruct (py_get_default_iter _ _ _ Hv) as [Hl|[_ ->]]; [|cbn; eauto].
  unfold py_get in H. rewrite Hl in H. cbn [bind] in H. rewrite Ht in H.
  destruct (py_iter v) as [xs|]; [eauto|discriminate].
Qed.

(** The ATS record that tab3 hands on is always a dict, and what it has
    under [ats_recommendations] and under [jargon_detected] can be
    iterated whenever it is true, which is when the renderer iterates
    it. *)
Theorem tab3_record_invariant (py : interpreter) (raw : str) :
  exists d,
    snd (tab3 py raw) = PyDict d
    /\ (forall v, py_get (PyDict d) (u "ats_recommendations") (PyList []) = Ok v ->
                  truthy py v = true -> exists xs, py_iter v = Ok xs)
    /\ (forall v, py_get (PyDict d) (u "jargon_detected") (PyList []) = Ok v ->
                  truthy py v = true -> exists xs, py_iter v = Ok xs).
Proof.
  unfold tab3. destruct (tab3_try py raw) as [a|e] eqn:E; cbn [snd].
  - unfold tab3_try in E. split_binds. injection E as <-.
    destruct (py_get_dict _ _ _ _ Hx1) as [d ->].
    exists d. split; [reflexivity|]. split; intros v Hv Ht.
    + destruct x0. eapply show_list_iter; eassumption.
    + destruct (py_get_default_iter _ _ _ Hv) as [Hl|[_ ->]]; [|cbn; eauto].
      unfold py_get in Hx1. rewrite Hl in Hx1. injection Hx1 as <-.
      rewrite Ht in Hx3. cbn [orb] in Hx3. split_binds.
      assert (x = v) by congruence. subst x.
      destruct v, x1; cbn in Hx6; try discriminate; cbn; eauto.
  - exists []. split; [reflexivity|].
    split; intros v Hv; cbn in Hv; injection Hv as <-; cbn; eauto.
Qed.



(** ** What the report reads *)

Lemma py_get_agree (d d' : list (str * value)) (k : str) (default : value) :
  dict_lookup k d = dict_lookup k d' ->
  py_get (PyDict d) k default = py_get (PyDict d') k default.
Proof. unfold py_get. now intros ->. Qed.

Lemma story_of_agree (py : interpreter) (rl : reportlab)
    (da da' dt dt' : list (str * value)) (s s' : value) :
  agree_on analysis_keys da da' -> agree_on ats_keys dt dt' ->
  story_of py rl (PyDict da) s (PyDict dt)
  = story_of py rl (PyDict da') s' (PyDict dt').
Proof.
  intros Ha Ht. rewrite !story_of_layout. unfold layout.
  rewrite (py_get_agree da da' (u "resume_quality_score"))
    by (apply Ha; cbn [In analysis_keys]; auto 8).
  rewrite (layout_body_ext py rl (PyDict da) (PyDict da') (PyDict dt) (PyDict dt'));
    [reflexivity|..];
    apply py_get_agree; first [apply Ha | apply Ht];
    cbn [In analysis_keys ats_keys]; auto 8.
Qed.

(** The report is settled by what the quality record has under five keys
    and the ATS record under two: records that agree on these give the same
    report or the same failure, whatever else they hold (well-written
    sections, keyword suggestions, formatting issues, filler phrases, an
    error message) and whatever the structured record is. *)
Theorem report_reads_only_its_keys (py : interpreter) (rl : reportlab)
    (da da' dt dt' : list (str * value)) (s s' : value) :
  agree_on analysis_keys da da' -> agree_on ats_keys dt dt' ->
  generate_pdf_report py rl (PyDict da) s (PyDict dt)
  = generate_pdf_report py rl (PyDict da') s' (PyDict dt').
Proof.
  intros Ha Ht. unfold generate_pdf_report.
  now rewrite (story_of_agree py rl da da' dt dt' s s' Ha Ht).
Qed.

Lemma report_reads_only_its_keys_witness :
  generate_pdf_report sample_interpreter sample_reportlab
    (PyDict [(u "well_written_sections", PyList [PyStr (u "Skills")]);
             (u "resume_quality_score", PyInt 42)])
    (PyList [])
    (PyDict [(u "keyword_suggestions", PyList [PyStr (u "Python")]);
             (u "formatting_issues", PyList [PyStr (u "tables")])])
  = generate_pdf_report sample_interpreter sample_reportlab
      (PyDict [(u "resume_quality_score", PyInt 42)]) empty_record (PyDict []).
Proof.
  apply report_reads_only_its_keys.
  - intros k Hk. cbn [In analysis_keys] in Hk.
    repeat (destruct Hk as [<-|Hk]; [reflexivity|]). destruct Hk.
  - intros k Hk. cbn [In ats_keys] in Hk.
    repeat (destruct Hk as [<-|Hk]; [reflexivity|]). destruct Hk.
Defined.

(** ** A run in which the calls fail *)

Lemma error_record_agree (keys : list str) (message : str) :
  forallb (fun k => negb (str_eqb (u "error") k)) keys = true ->
  agree_on keys [(u "error", PyStr message)] [].
Proof.
  intros H k Hk. rewrite forallb_forall in H. specialize (H k Hk).
  apply negb_true_iff in H. cbn [dict_lookup]. now rewrite H.
Qed.

Lemma tab1_error_record (msg : str) :
  plain_text msg = true ->
  tab1 (q "{'error': '" ++ msg ++ q "'}")
  = ([st_json (error_record msg)], error_record msg).
Proof.
  intros H. unfold tab1, tab1_try.
  rewrite raw_output_error_text, (loads_error_object msg H). reflexivity.
Qed.

Lemma tab2_error_record (msg : str) :
  plain_text msg = true ->
  tab2 (q "{'error': '" ++ msg ++ q "'}")
  = ([st_json (error_record msg); st_download_json (error_record msg)],
     error_record msg).
Proof.
  intros H. unfold tab2.
  rewrite raw_output_error_text, (loads_error_object msg H). reflexivity.
Qed.

Lemma tab3_error_record (py : interpreter) (msg : str) :
  plain_text msg = true ->
  tab3 py (q "{'error': '" ++ msg ++ q "'}")
  = ([st_json (error_record msg)], error_record msg).
Proof.
  intros H. unfold tab3, tab3_try, show_list.
  rewrite raw_output_error_text, (loads_error_object msg H). reflexivity.
Qed.

Lemma plain_text_app (a b : str) :
  plain_text a = true -> plain_text b = true -> plain_text (a ++ b) = true.
Proof. unfold plain_text. intros Ha Hb. now rewrite forallb_app, Ha, Hb. Qed.

Section RunFacts.

Variable py : interpreter.
Variable rl : reportlab.
Variables fitz_open Document : list Byte.byte -> outcome (list str).

(** When each of the three calls fails with a plain message, the run is
    not halted and shows no warning: each call is made, each tab shows the
    error object as the result of its analysis (the second also offers it
    for download as the structured data), and the last tab lays out the
    report of three empty records, with the score N/A. *)
Theorem failed_calls_run (model : client) (uploaded_file : UploadedFile)
    (resume_text e1 e2 e3 : str) :
  extract_text fitz_open Document uploaded_file = Ok resume_text ->
  strip resume_text <> [] ->
  model (analyze_prompt resume_text) = Error e1 ->
  model (structured_prompt resume_text) = Error e2 ->
  model (ats_prompt resume_text) = Error e3 ->
  plain_text e1 = true -> plain_text e2 = true -> plain_text e3 = true ->
  script py rl fitz_open Document model uploaded_file
  = [generate_content (analyze_prompt resume_text);
     st_json (error_record (u "Failed to analyze resume: " ++ e1));
     generate_content (structured_prompt resume_text);
     st_json (error_record (u "Failed to parse resume: " ++ e2));
     st_download_json (error_record (u "Failed to parse resume: " ++ e2));
     generate_content (ats_prompt resume_text);
     st_json (error_record (u "Failed to analyze jargon/ATS: " ++ e3))]
    ++ tab4 py rl empty_record empty_record empty_record.
Proof.
  intros Hx Hs H1 H2 H3 P1 P2 P3.
  unfold script. rewrite Hx.
  destruct (strip resume_text) as [|c r] eqn:E; [congruence|].
  unfold analyze_resume, parse_structured_resume, detect_jargon_and_ats_issues.
  rewrite H1, H2, H3.
  change (q "{'error': 'Failed to analyze resume: " ++ e1 ++ q "'}")
    with (q "{'error': '" ++ (u "Failed to analyze resume: " ++ e1) ++ q "'}").
  change (q "{'error': 'Failed to parse resume: " ++ e2 ++ q "'}")
    with (q "{'error': '" ++ (u "Failed to parse resume: " ++ e2) ++ q "'}").
  change (q "{'error': 'Failed to analyze jargon/ATS: " ++ e3 ++ q "'}")
    with (q "{'error': '" ++ (u "Failed to analyze jargon/ATS: " ++ e3) ++ q "'}").
  rewrite tab1_error_record by (apply plain_text_app; [reflexivity|exact P1]).
  rewrite tab2_error_record by (apply plain_text_app; [reflexivity|exact P2]).
  rewrite tab3_error_record by (apply plain_text_app; [reflexivity|exact P3]).
  cbn [app]. do 7 apply f_equal.
  unfold tab4, generate_pdf_report, error_record, empty_record.
  rewrite (story_of_agree py rl _ [] _ [] _ (PyDict []));
    [reflexivity| |]; apply error_record_agree; reflexivity.
Qed.

End RunFacts.

Lemma failed_calls_run_witness :
  script sample_interpreter sample_reportlab sample_parser sample_parser
    (failing (u "quota exceeded")) sample_txt
  = [generate_content (analyze_prompt sample_text);
     st_json (error_record (u "Failed to analyze resume: quota exceeded"));
     generate_content (structured_prompt sample_text);
     st_json (error_record (u "Failed to parse resume: quota exceeded"));
     st_download_json (error_record (u "Failed to parse resume: quota exceeded"));
     generate_content (ats_prompt sample_text);
     st_json (error_record (u "Failed to analyze jargon/ATS: quota exceeded"))]
    ++ tab4 sample_interpreter sample_reportlab empty_record empty_record
         empty_record.
Proof.
  apply (failed_calls_run sample_interpreter sample_reportlab sample_parser
           sample_parser (failing (u "quota exceeded")) sample_txt sample_text
           (u "quota exceeded") (u "quota exceeded") (u "quota exceeded")).
  - vm_compute. reflexivity.
  - vm_compute. discriminate.
  - reflexivity.
  - reflexivity.
  - reflexivity.
  - reflexivity.
  - reflexivity.
  - reflexivity.
Defined.

(** ** The headings of the report and the blocks not yet covered *)

Lemma headings_app (a b : list flowable) :
  headings (a ++ b) = headings a ++ headings b.
Proof. unfold headings. apply flat_map_app. Qed.

Lemma headings_bullets (py : interpreter) (xs : list value) :
  headings (map (bullet_line py) xs) = [].
Proof. induction xs as [|x xs IH]; [reflexivity|exact IH]. Qed.

Lemma headings_list_block (py : interpreter) (rl : reportlab) (h : str)
    (source : value) (spacer : bool) (b : list flowable) :
  list_block py rl h source spacer = Ok b ->
  headings b = heading_if (truthy py source) h.
Proof.
  intros H.
  destruct (list_block_inv _ _ _ _ _ _ H) as [[-> ->]|[-> (xs & _ & ->)]];
    [reflexivity|].
  change (Paragraph h (Sample "Heading3")
          :: map (bullet_line py) xs ++ (if spacer then [Spacer 1 12] else []))
    with ([Paragraph h (Sample "Heading3")]
          ++ map (bullet_line py) xs ++ (if spacer then [Spacer 1 12] else [])).
  rewrite !headings_app, headings_bullets. now destruct spacer.
Qed.

Lemma sentiment_block_inv (py : interpreter) (rl : reportlab) (v : value)
    (b : list flowable) :
  sentiment_block py rl v = Ok b ->
  (truthy py v = false /\ b = [])
  \/ (truthy py v = true
      /\ exists text,
           v = PyStr text
           /\ b = [Paragraph sentiment_heading (Sample "Heading3");
                   Paragraph text (Sample "Normal"); Spacer 1 12]).
Proof.
  unfold sentiment_block. intros H.
  destruct (truthy py v); [|left; now injection H as <-].
  right. split; [reflexivity|]. split_binds.
  destruct v; try discriminate. cbn [paragraph_of] in Hx0.
  apply new_paragraph_ok in Hx as [Ex _], Hx0 as [Ex0 _].
  eexists. split; [reflexivity|]. unfold sentiment_heading. congruence.
Qed.

Lemma headings_sentiment_block (py : interpreter) (rl : reportlab) (v : value)
    (b : list flowable) :
  sentiment_block py rl v = Ok b ->
  headings b = heading_if (truthy py v) sentiment_heading.
Proof.
  intros H.
  destruct (sentiment_block_inv _ _ _ _ H) as [[-> ->]|[-> (text & _ & ->)]];
    reflexivity.
Qed.

(** The headings of a report stand in one order: Sections Detected, which
    is always there, then Missing Sections, Skills Sentiment Analysis,
    Improvement Suggestions, ATS-Friendly Recommendations and
    Jargon/Filler Phrases Detected, each there exactly when its value is
    true. *)
Theorem heading_order (py : interpreter) (rl : reportlab) (a s t : value)
    (story : list flowable) (missing sentiment suggestions ats_recs jargon : value) :
  story_of py rl a s t = Ok story ->
  py_get a (u "missing_sections") (PyList []) = Ok missing ->
  py_get a (u "skills_sentiment_summary") (PyStr []) = Ok sentiment ->
  py_get a (u "improvement_suggestions") (PyList []) = Ok suggestions ->
  py_get t (u "ats_recommendations") (PyList []) = Ok ats_recs ->
  py_get t (u "jargon_detected") (PyList []) = Ok jargon ->
  headings story
  = sections_text
    :: heading_if (truthy py missing) missing_heading
    ++ heading_if (truthy py sentiment) sentiment_heading
    ++ heading_if (truthy py suggestions) suggestions_heading
    ++ heading_if (truthy py ats_recs) ats_heading
    ++ heading_if (truthy py jargon) jargon_heading.
Proof.
  intros H G1 G2 G3 G4 G5. apply story_of_inv in H.
  destruct H as [score sections xs missing' b1 sentiment' b2 suggestions' b3
                   ats_recs' b4 jargon' b5
                   Hscore Hsections Hxs Hmissing Hb1 Hsent Hb2 Hsugg Hb3
                   Hats Hb4 Hjargon Hb5].
  assert (missing' = missing) by congruence.
  assert (sentiment' = sentiment) by congruence.
  assert (suggestions' = suggestions) by congruence.
  assert (ats_recs' = ats_recs) by congruence.
  assert (jargon' = jargon) by congruence.
  subst.
  rewrite !headings_app.
  rewrite (headings_list_block _ _ _ _ _ _ Hb1), (headings_list_block _ _ _ _ _ _ Hb3),
    (headings_list_block _ _ _ _ _ _ Hb4), (headings_list_block _ _ _ _ _ _ Hb5),
    (headings_sentiment_block _ _ _ _ Hb2).
  unfold sections_lines.
  change (sections_heading :: map (bullet_line py) xs ++ [Spacer 1 12])
    with ([sections_heading] ++ map (bullet_line py) xs ++ [Spacer 1 12]).
  rewrite !headings_app, headings_bullets. reflexivity.
Qed.

Lemma heading_order_witness :
  headings sample_story = [sections_text; missing_heading; jargon_heading].
Proof.
  exact (heading_order sample_interpreter sample_reportlab sample_analysis
           empty_record sample_ats sample_story
           (PyList [PyStr (u "Certifications")]) (PyStr []) (PyList [])
           (PyList []) (PyList [PyStr (u "synergy")])
           sample_story_built eq_refl eq_refl eq_refl eq_refl eq_refl).
Defined.

(** The sentiment block: when the report is laid out, the value under
    [skills_sentiment_summary] is either false, and no sentiment heading
    is in the report, or a str that is not empty, and under the heading
    stands that str as one paragraph.  A value that is true and no str
    (a number, a list, an object) is in no report: laying out fails. *)
Theorem sentiment_paragraph (py : interpreter) (rl : reportlab) (a s t : value)
    (story : list flowable) (v : value) :
  story_of py rl a s t = Ok story ->
  py_get a (u "skills_sentiment_summary") (PyStr []) = Ok v ->
  (truthy py v = false /\ lines_under sentiment_heading story = None)
  \/ (exists text,
        v = PyStr text /\ text <> []
        /\ lines_under sentiment_heading story
           = Some [Paragraph text (Sample "Normal")]).
Proof.
  intros H G. apply story_of_inv in H.
  destruct H as [score sections xs missing b1 sentiment b2 suggestions b3
                   ats_recs b4 jargon b5
                   Hscore Hsections Hxs Hmissing Hb1 Hsent Hb2 Hsugg Hb3
                   Hats Hb4 Hjargon Hb5].
  assert (sentiment = v) by congruence. subst sentiment.
  assert (Hpre : forallb (not_heading sentiment_heading)
                   (head_block py score ++ sections_lines py xs ++ b1) = true)
    by solve_not_heading.
  replace (head_block py score ++ sections_lines py xs
           ++ b1 ++ b2 ++ b3 ++ b4 ++ b5)
    with ((head_block py score ++ sections_lines py xs ++ b1)
          ++ b2 ++ b3 ++ b4 ++ b5)
    by (now rewrite <- !app_assoc).
  rewrite (lines_under_skip _ _ _ Hpre).
  destruct (sentiment_block_inv _ _ _ _ Hb2) as [[Hf ->]|[Ht (text & -> & ->)]].
  - left. split; [exact Hf|]. apply lines_under_none. solve_not_heading.
  - right. exists text. split; [reflexivity|]. split.
    + intros ->. discriminate.
    + reflexivity.
Qed.

Lemma sentiment_paragraph_witness :
  exists story,
    story_of sample_interpreter sample_reportlab
      (PyDict [(u "skills_sentiment_summary", PyStr (u "Confident"))])
      empty_record empty_record = Ok story
    /\ lines_under sentiment_heading story
       = Some [Paragraph (u "Confident") (Sample "Normal")].
Proof.
  eexists. split; [vm_compute; reflexivity|].
  destruct (sentiment_paragraph sample_interpreter sample_reportlab
              (PyDict [(u "skills_sentiment_summary", PyStr (u "Confident"))])
              empty_record empty_record _ (PyStr (u "Confident"))
              ltac:(vm_compute; reflexivity) eq_refl)
    as [[Hf _]|(text & E & _ & Hl)].
  - discriminate.
  - injection E as <-. exact Hl.
Defined.

(** The block of the detected sections: when the report is laid out, the
    value under [sections_detected] can be iterated, and under the heading
    that is always there stand the bullet lines of what the iteration
    gives, one for each, in their order.  For a list these are its items;
    for a str they are its characters, one bullet line for each. *)
Theorem detected_sections_block (py : interpreter) (rl : reportlab)
    (a s t : value) (story : list flowable) (v : value) :
  story_of py rl a s t = Ok story ->
  py_get a (u "sections_detected") (PyList []) = Ok v ->
  (exists xs,
     py_iter v = Ok xs
     /\ lines_under sections_text story = Some (map (bullet_line py) xs))
  /\ (forall text,
        v = PyStr text ->
        lines_under sections_text story
        = Some (map (fun c => Paragraph (bullet ++ [c]) (Sample "Normal")) text)).
Proof.
  intros H G. apply story_of_inv in H.
  destruct H as [score sections xs missing b1 sentiment b2 suggestions b3
                   ats_recs b4 jargon b5
                   Hscore Hsections Hxs Hmissing Hb1 Hsent Hb2 Hsugg Hb3
                   Hats Hb4 Hjargon Hb5].
  assert (sections = v) by congruence. subst sections.
  assert (L : lines_under sections_text
                (head_block py score ++ sections_lines py xs
                 ++ b1 ++ b2 ++ b3 ++ b4 ++ b5)
              = Some (map (bullet_line py) xs)).
  { rewrite (lines_under_skip _ _ _ (not_heading_head py sections_text score)).
    unfold sections_lines, sections_heading. cbn [app].
    rewrite (lines_under_here sections_text).
    rewrite <- app_assoc, body_lines_bullets. cbn [app body_lines].
    now rewrite app_nil_r. }
  split.
  - exists xs. split; [exact Hxs|exact L].
  - intros text ->. rewrite L. cbn [py_iter] in Hxs. injection Hxs as <-.
    now rewrite map_map.
Qed.

Lemma detected_sections_block_witness :
  exists story,
    story_of sample_interpreter sample_reportlab
      (PyDict [(u "sections_detected", PyStr (u "CV"))])
      empty_record empty_record = Ok story
    /\ lines_under sections_text story
       = Some [Paragraph (bullet ++ u "C") (Sample "Normal");
               Paragraph (bullet ++ u "V") (Sample "Normal")].
Proof.
  eexists. split; [vm_compute; reflexivity|].
  exact (proj2 (detected_sections_block sample_interpreter sample_reportlab
                  (PyDict [(u "sections_detected", PyStr (u "CV"))])
                  empty_record empty_record _ (PyStr (u "CV"))
                  ltac:(vm_compute; reflexivity) eq_refl)
           (u "CV") eq_refl).
Defined.

(** ** Records the report cannot be laid out from *)

(** A quality record with a value under [skills_sentiment_summary] that is
    true and no str, or with a value under [improvement_suggestions] that
    is true and cannot be iterated, makes the report fail whatever the
    other records are: the last tab shows one error and offers nothing
    for download.  (The first tab looks at neither value.) *)
Theorem malformed_record_fails_report (py : interpreter) (rl : reportlab)
    (a s t v : value) :
  (py_get a (u "skills_sentiment_summary") (PyStr []) = Ok v
   /\ truthy py v = true /\ (forall text, v <> PyStr text))
  \/ (py_get a (u "improvement_suggestions") (PyList []) = Ok v
      /\ truthy py v = true /\ (forall xs, py_iter v <> Ok xs)) ->
  exists e,
    tab4 py rl a s t
    = [st_error_details (u "Error while generating PDF report: ") e].
Proof.
  intros Hv. unfold tab4, generate_pdf_report.
  destruct (story_of py rl a s t) as [story|e] eqn:E; cbn [bind];
    [exfalso|eexists; reflexivity].
  apply story_of_inv in E.
  destruct E as [score sections xs missing b1 sentiment b2 suggestions b3
                   ats_recs b4 jargon b5
                   Hscore Hsections Hxs Hmissing Hb1 Hsent Hb2 Hsugg Hb3
                   Hats Hb4 Hjargon Hb5].
  destruct Hv as [(G & Ht & Hn)|(G & Ht & Hn)].
  - assert (sentiment = v) by congruence. subst sentiment.
    destruct (sentiment_block_inv _ _ _ _ Hb2) as [[Hf _]|[_ (text & E & _)]];
      [congruence|exact (Hn text E)].
  - assert (suggestions = v) by congruence. subst suggestions.
    destruct (list_block_inv _ _ _ _ _ _ Hb3) as [[Hf _]|[_ (ys & E & _)]];
      [congruence|exact (Hn ys E)].
Qed.

Lemma malformed_record_fails_report_witness :
  snd (tab1 (q "{'skills_sentiment_summary': 5}"))
  = PyDict [(u "skills_sentiment_summary", PyInt 5)]
  /\ exists e,
       tab4 sample_interpreter sample_reportlab
         (PyDict [(u "skills_sentiment_summary", PyInt 5)]) empty_record
         empty_record
       = [st_error_details (u "Error while generating PDF report: ") e].
Proof.
  split; [vm_compute; reflexivity|].
  apply (malformed_record_fails_report sample_interpreter sample_reportlab
           (PyDict [(u "skills_sentiment_summary", PyInt 5)]) empty_record
           empty_record (PyInt 5)).
  left. split; [reflexivity|]. split; [reflexivity|]. intros text. discriminate.
Defined.

(** The third tab adds the filler phrases to the jargon phrases before it
    shows them.  When one of the two is a list (or is not there) and the
    other a str that is not empty, the sum fails, and the tab hands the
    empty record on with a warning: the recommendations and the jargon
    phrases, which the report would have read, are lost to the report. *)
Theorem filler_phrases_void_ats_record (py : interpreter) (raw : str)
    (d : list (str * value)) (jargon filler : value) :
  Json.loads (raw_output raw) = Ok (PyDict d) ->
  py_get (PyDict d) (u "jargon_detected") (PyList []) = Ok jargon ->
  py_get (PyDict d) (u "filler_phrases") (PyList []) = Ok filler ->
  (exists xs c text, jargon = PyList xs /\ filler = PyStr (c :: text))
  \/ (exists c text ys, jargon = PyStr (c :: text) /\ filler = PyList ys) ->
  exists e,
    tab3 py raw
    = ([st_warning (u "Could not parse ATS data. Showing raw output:");
        st_text_area (u "Raw ATS Data") raw;
        st_error_details (u "Error details: ") e],
       PyDict []).
Proof.
  intros Hl Hj Hf Hshape. unfold tab3.
  destruct (tab3_try py raw) as [v|e] eqn:E; [exfalso|eexists; reflexivity].
  unfold tab3_try in E. rewrite Hl in E. cbn [bind] in E.
  split_binds. rewrite Hj, Hf in Hx2. cbn [bind] in Hx2.
  assert (Hor : truthy py x0 || truthy py x1 = true).
  { unfold py_get in Hj, Hf, Hx0, Hx1.
    destruct (dict_lookup (u "jargon_detected") d) as [j|],
             (dict_lookup (u "filler_phrases") d) as [f|];
      injection Hj as <-; injection Hf as <-;
      injection Hx0 as <-; injection Hx1 as <-;
      destruct Hshape as [(xs & c & text & E1 & E2)|(c & text & ys & E1 & E2)];
      try discriminate; subst; cbn; try reflexivity; apply orb_true_r. }
  rewrite Hor in Hx2.
  destruct Hshape as [(xs & c & text & -> & ->)|(c & text & ys & -> & ->)];
    cbn in Hx2; discriminate.
Qed.

Lemma filler_phrases_void_ats_record_witness :
  exists e,
    tab3 sample_interpreter
      (q "{'ats_recommendations': ['Use standard headings'], 'filler_phrases': 'none'}")
    = ([st_warning (u "Could not parse ATS data. Showing raw output:");
        st_text_area (u "Raw ATS Data")
          (q "{'ats_recommendations': ['Use standard headings'], 'filler_phrases': 'none'}");
        st_error_details (u "Error details: ") e],
       PyDict []).
Proof.
  apply (filler_phrases_void_ats_record sample_interpreter _
           [(u "ats_recommendations", PyList [PyStr (u "Use standard headings")]);
            (u "filler_phrases", PyStr (u "none"))]
           (PyList []) (PyStr (u "none"))).
  - vm_compute. reflexivity.
  - reflexivity.
  - reflexivity.
  - left. exists [], 110%N, (u "one"). split; reflexivity.
Defined.

(** ** Records of the asked shape *)









(** ** A run in which the model complies *)





Section CompliantRun.

Variable py : interpreter.
Variable rl : reportlab.
Variables fitz_open Document : list Byte.byte -> outcome (list str).


End CompliantRun.


(** ** Replies that do not begin a JSON value *)

Lemma is_ws_isspace (c : char) : isspace c = false -> Json.is_ws c = false.
Proof.
  intros H. unfold Json.is_ws.
  destruct (N.eqb_spec c 32) as [->|_]; [discriminate|].
  destruct (N.eqb_spec c 9) as [->|_]; [discriminate|].
  destruct (N.eqb_spec c 10) as [->|_]; [discriminate|].
  destruct (N.eqb_spec c 13) as [->|_]; [discriminate|].
  reflexivity.
Qed.

Lemma after_other (x : char) (lit : str) (c : char) (r : str) :
  (c =? x)%N = false -> Json.after (x :: lit) (c :: r) = None.
Proof. intros H. cbn [Json.after]. now rewrite N.eqb_sym, H. Qed.

Lemma scan_expecting_value (fuel : nat) (c : char) (r : str) :
  value_start c = false ->
  Json.scan_once (S fuel) (c :: r) = Json.Failed "Expecting value".
Proof.
  unfold value_start. intros H.
  repeat match type of H with
         | (_ || _)%bool = false =>
             let H' := fresh "H" in apply orb_false_iff in H as [H H']
         end.
  assert (Hz : (c =? 48)%N = false).
  { destruct (N.eqb_spec c 48) as [->|_]; [discriminate|reflexivity]. }
  cbn [Json.scan_once].
  repeat match goal with
         | Hc : (c =? _)%N = false |- _ => rewrite Hc; clear Hc
         end.
  change (u "null") with (110%N :: u "ull").
  change (u "true") with (116%N :: u "rue").
  change (u "false") with (102%N :: u "alse").
  change (u "NaN") with (78%N :: u "aN").
  change (u "Infinity") with (73%N :: u "nfinity").
  change (u "-Infinity") with (45%N :: u "Infinity").
  rewrite !after_other by assumption.
  unfold Json.match_number, Json.match_integer.
  repeat (match goal with
          | Hc : ?t = false |- context [?t] => rewrite Hc
          end; cbv beta iota).
  reflexivity.
Qed.

Lemma loads_expecting_value (c : char) (r : str) :
  isspace c = false -> value_start c = false ->
  exists msg, Json.loads (c :: r) = Raise (JSONDecodeError msg).
Proof.
  intros Hs Hv. unfold Json.loads.
  destruct (startswith [65279%N] (c :: r)); [eauto|].
  cbn [Json.skip_ws]. rewrite (is_ws_isspace c Hs).
  unfold Json.fuel_for. cbn [length].
  replace (2 * S (length r) + 1) with (S (2 * S (length r))) by lia.
  rewrite (scan_expecting_value _ c r Hv). eauto.
Qed.

Lemma startswith_app_cancel (p a b : str) :
  startswith (p ++ a) (p ++ b) = startswith a b.
Proof.
  induction p as [|x p IH]; [reflexivity|].
  cbn [app startswith]. now rewrite N.eqb_refl, IH.
Qed.

Lemma strip_cons_keep (c : char) (r : str) :
  isspace c = false -> strip (c :: r) = c :: rstrip r.
Proof.
  intros H. unfold strip. now rewrite (lstrip_keep _ _ H), (rstrip_cons_keep _ _ H).
Qed.

(** A reply that begins, after its leading whitespace and its opening
    fence if it has one, with a character no JSON value begins with is
    never parsed: words before the object, or a fence with a tag other
    than json (JSON in capitals, python, javascript), make [json.loads]
    raise, so that the tab falls back to the warning and the empty
    record. *)
Theorem reply_not_starting_a_value (raw : str) (c : char) (r : str) :
  value_start c = false -> isspace c = false -> c <> backtick ->
  strip raw = c :: r
  \/ (strip raw = fence ++ c :: r /\ startswith (u "json") (c :: r) = false) ->
  exists msg, Json.loads (raw_output raw) = Raise (JSONDecodeError msg).
Proof.
  intros Hv Hs Hb [E|[E Hj]].
  - rewrite raw_output_unfenced; rewrite E.
    + now apply loads_expecting_value.
    + rewrite fence_eq. cbn [startswith]. now rewrite (backtick_eqb _ Hb).
  - unfold raw_output. cbv zeta. rewrite E.
    rewrite fence_json_eq, startswith_app_cancel, Hj, startswith_app.
    rewrite replace_match by exact fence_nonempty. rewrite app_nil_l.
    rewrite replace_skip;
      [|exact fence_nonempty
       |rewrite fence_eq; cbn [startswith]; now rewrite (backtick_eqb _ Hb)].
    rewrite (strip_cons_keep _ _ Hs). now apply loads_expecting_value.
Qed.

Lemma reply_not_starting_a_value_witness :
  (exists msg,
     Json.loads (raw_output (q "Here is the analysis: {'resume_quality_score': 42}"))
     = Raise (JSONDecodeError msg))
  /\ (exists msg,
        Json.loads (raw_output (fence ++ u "JSON" ++ [10%N] ++ q "{}" ++ [10%N] ++ fence))
        = Raise (JSONDecodeError msg)).
Proof.
  split.
  - apply (reply_not_starting_a_value _ 72%N
             (q "ere is the analysis: {'resume_quality_score': 42}"));
      [reflexivity|reflexivity|discriminate|].
    left. vm_compute. reflexivity.
  - apply (reply_not_starting_a_value _ 74%N
             (u "SON" ++ [10%N] ++ q "{}" ++ [10%N] ++ fence));
      [reflexivity|reflexivity|discriminate|].
    right. split; vm_compute; reflexivity.
Defined.

(** ** The choice of the extraction and its failures *)

Lemma endswith_app (p s : str) : endswith p (s ++ p) = true.
Proof. unfold endswith. rewrite rev_app_distr. apply startswith_app. Qed.


Module DecodeFacts.

#[local] Arguments N.leb : simpl never.
#[local] Arguments N.ltb : simpl never.

Lemma cont_low (c : N) : (c < 128)%N -> Utf8.cont c = false.
Proof.
  intros H. unfold Utf8.cont.
  destruct (N.leb_spec 128 c); [lia|reflexivity].
Qed.

Lemma within_low (lo hi c : N) :
  (c < 128)%N -> (128 <= lo)%N -> Utf8.within lo hi c = false.
Proof.
  intros H Hlo. unfold Utf8.within.
  destruct (N.leb_spec lo c); [lia|reflexivity].
Qed.

(** A byte that is not ASCII and stands before an ASCII byte, or at the
    end, begins no UTF-8 sequence. *)
Lemma decode_lead_alone (b : N) (rest : list N) :
  (128 <= b)%N -> (hd 0%N rest < 128)%N -> Utf8.decode_N (b :: rest) = None.
Proof.
  intros Hb Hr. cbn [Utf8.decode_N].
  destruct (N.ltb_spec b 128); [lia|].
  destruct rest as [|b1 rest]; [now repeat destruct (Utf8.within _ _ b)|].
  cbn [hd] in Hr.
  destruct (Utf8.within 194 223 b); [now rewrite (cont_low _ Hr)|].
  destruct (Utf8.within 224 239 b).
  { destruct rest as [|b2 rest]; [reflexivity|].
    rewrite within_low; [reflexivity|exact Hr|].
    destruct (b =? 224)%N; lia. }
  destruct (Utf8.within 240 244 b); [|reflexivity].
  destruct rest as [|b2 [|b3 rest]]; try reflexivity.
  rewrite within_low; [reflexivity|exact Hr|].
  destruct (b =? 240)%N; lia.
Qed.

Lemma decode_ascii_prefix (pre rest : list N) :
  Forall (fun x => (x < 128)%N) pre ->
  Utf8.decode_N rest = None -> Utf8.decode_N (pre ++ rest) = None.
Proof.
  intros Hpre Hrest. induction Hpre as [|x pre Hx _ IH]; [exact Hrest|].
  cbn [app Utf8.decode_N].
  destruct (N.ltb_spec x 128); [|lia]. now rewrite IH.
Qed.

End DecodeFacts.

Section ExtractionFailure.

Variable py : interpreter.
Variable rl : reportlab.
Variables fitz_open Document : list Byte.byte -> outcome (list str).
Variable model : client.

(** A failure of the extraction is caught nowhere: when PyMuPDF raises
    on a file named in .pdf, or python-docx on one named in .docx, or when
    the bytes of any other file are no UTF-8 (here: after ASCII bytes
    comes a byte that is not ASCII and is followed by an ASCII byte or by
    nothing, as in a Latin-1 text), the run ends with that exception.  The
    message of the blank text is not shown and the model is not called. *)
Theorem extraction_failure_ends_run (uploaded_file : UploadedFile) :
  (forall stem e,
     name uploaded_file = stem ++ u ".pdf" ->
     fitz_open (read uploaded_file) = Raise e ->
     script py rl fitz_open Document model uploaded_file = [uncaught e])
  /\ (forall stem e,
        name uploaded_file = stem ++ u ".docx" ->
        Document (read uploaded_file) = Raise e ->
        script py rl fitz_open Document model uploaded_file = [uncaught e])
  /\ (forall pre b rest,
        endswith (u ".pdf") (name uploaded_file) = false ->
        endswith (u ".docx") (name uploaded_file) = false ->
        map Byte.to_N (read uploaded_file) = pre ++ b :: rest ->
        Forall (fun x => (x < 128)%N) pre ->
        (128 <= b)%N -> (hd 0%N rest < 128)%N ->
        script py rl fitz_open Document model uploaded_file
        = [uncaught UnicodeDecodeError]).
Proof.
  unfold script, extract_text, extract_text_from_pdf, extract_text_from_docx,
    extract_text_from_txt.
  split; [|split].
  - intros stem e Hn Hf. rewrite Hn, endswith_app, Hf. reflexivity.
  - intros stem e Hn Hf. rewrite Hn, endswith_app, Hf.
    replace (endswith (u ".pdf") (stem ++ u ".docx")) with false; [reflexivity|].
    unfold endswith. now rewrite rev_app_distr.
  - intros pre b rest H1 H2 Hd Hpre Hb Hr. rewrite H1, H2.
    unfold Utf8.decode. rewrite Hd.
    rewrite (DecodeFacts.decode_ascii_prefix pre (b :: rest) Hpre
               (DecodeFacts.decode_lead_alone b rest Hb Hr)).
    reflexivity.
Qed.

End ExtractionFailure.

Lemma extraction_failure_ends_run_witness :
  script sample_interpreter sample_reportlab sample_parser sample_parser
    (answering (q "{}")) latin1_txt
  = [uncaught UnicodeDecodeError].
Proof.
  apply (proj2 (proj2 (extraction_failure_ends_run sample_interpreter
                         sample_reportlab sample_parser sample_parser
                         (answering (q "{}")) latin1_txt))
           [99%N] 233%N [32%N]).
  - reflexivity.
  - reflexivity.
  - reflexivity.
  - repeat constructor.
  - vm_compute. discriminate.
  - reflexivity.
Defined.

(** ** Objects the first tab does not take *)

(** The first tab counts the detected and the missing sections with
    [len] before it shows the record.  When the reply is a JSON object
    that has under one of the two keys a value with no length (null, a
    number, true or false), the count fails and the whole object is
    dropped: the tab shows the warning and hands the empty record on, so
    that the score of the reply is lost to the report as well. *)
Theorem unsized_sections_void_quality_record (raw : str)
    (d : list (str * value)) (v : value) :
  Json.loads (raw_output raw) = Ok (PyDict d) ->
  dict_lookup (u "sections_detected") d = Some v
  \/ dict_lookup (u "missing_sections") d = Some v ->
  (forall n, py_len v <> Ok n) ->
  exists e,
    tab1 raw
    = ([st_warning (u "Could not parse JSON feedback.");
        st_text_area (u "Raw Feedback") raw;
        st_error_details (u "Error details: ") e],
       PyDict []).
Proof.
  intros Hl Hv Hn. unfold tab1.
  destruct (tab1_try raw) as [a|e] eqn:E; [exfalso|eexists; reflexivity].
  unfold tab1_try in E. rewrite Hl in E. cbn [bind] in E. split_binds.
  unfold py_get in Hx0, Hx2.
  destruct Hv as [Hv|Hv]; rewrite Hv in *.
  - injection Hx0 as <-. exact (Hn _ Hx1).
  - injection Hx2 as <-. exact (Hn _ Hx3).
Qed.

Lemma unsized_sections_void_quality_record_witness :
  exists e,
    tab1 (q "{'resume_quality_score': 42, 'missing_sections': null}")
    = ([st_warning (u "Could not parse JSON feedback.");
        st_text_area (u "Raw Feedback")
          (q "{'resume_quality_score': 42, 'missing_sections': null}");
        st_error_details (u "Error details: ") e],
       PyDict []).
Proof.
  apply (unsized_sections_void_quality_record _
           [(u "resume_quality_score", PyInt 42); (u "missing_sections", PyNone)]
           PyNone).
  - vm_compute. reflexivity.
  - right. reflexivity.
  - intros n. discriminate.
Defined.
